(** * gnssmapper.satellitedata: orbit fitting, orbit store and position evaluation

    Shallow embedding of [src/gnssmapper/satellitedata.py].

    - Python/NumPy floats are Rocq primitive binary64 floats ([PrimFloat]).
    - Times of day in nanoseconds (NumPy int64) are [Z].
    - Dictionaries keyed by strings ([SatelliteData.orbits], the per-day
      model [svid -> window map], the persisted per-day JSON records) are
      stdpp [gmap]s; an [OrderedDict] of windows, whose order matters for
      the nearest-window search, is an association list.
    - The object's mutable state, the files in the [data.orbits] package and
      the stream of [warnings.warn] calls and downloads are threaded through
      a small state-and-exception monad [PyM]. *)

From stdpp Require Import base gmap strings list.
From Stdlib Require Import ZArith Floats Ascii.

(* ------------------------------------------------------------------ *)
(** ** Python runtime fragments *)

(** Exceptions raised by the code or by the libraries it calls. *)
Inductive exn :=
| ValueError      (* e.g. assigning NaN into an int64 array, bad broadcast *)
| IndexError      (* out-of-range list / array index, [idxs[-1]] on [] *)
| KeyError
| DownloadError.  (* any failure of [_get_sp3_file] *)

(** Observable events: warnings (one constructor per [warnings.warn] call
    site, carrying the interpolated values) and calls of [_get_sp3_file]. *)
Inductive event :=
| WarnNoOrbit (svid day : string)          (* "orbit information not available for {svid} on {day}" *)
| WarnNoWindow (svid day : string) (t : Z) (* "Orbits available for {svid} on {day}, however ..." *)
| WarnFinal                                (* "final SP3 file not available, using rapid" *)
| WarnRapid                                (* "rapid SP3 file not available, using ultra ..." *)
| Fetch (day tier : string).               (* call _get_sp3_file(day, tier) *)

(** [mid.tolist()] / [scale.tolist()]: a row [tm, x, y, z] of the
    sample frame; pandas upcasts the mixed int/float row to float64. *)
Record vec4 := mkVec4 { v_tm : float; v_x : float; v_y : float; v_z : float }.

(** The dictionary returned by [_poly_lagrange] (one Window Fit). *)
Record window := mkWindow {
  lb : Z;                 (* "lb" *)
  ub : Z;                 (* "ub" *)
  mid : vec4;             (* "mid" *)
  scale : vec4;           (* "scale" *)
  cx : list float;        (* "x": ascending coefficients *)
  cy : list float;        (* "y" *)
  cz : list float         (* "z" *)
}.

(** [OrderedDict] midpoint -> window.  The JSON round trip turns the float
    midpoint keys into strings which [_locate_sat_vectorised] converts back
    with [.astype("float").astype("int64")]; nanosecond times of day are
    below 2^53 so the round trip is exact and the keys are kept as [Z]. *)
Definition winmap := list (Z * window).

(** One day's model: svid -> window map. *)
Definition daymodel := gmap string winmap.

(** The object state ([self.orbits]), the persisted per-day records of the
    [data.orbits] package (file [orbits_<day>.json] holds the model of
    [<day>]) and the event log. *)
Record world := mkWorld {
  orbits : gmap string daymodel;
  files : gmap string daymodel;
  log : list event
}.

Inductive res (A : Type) := Ok (a : A) | Raise (e : exn).
Arguments Ok {A} a.
Arguments Raise {A} e.

Definition rbind {A B} (r : res A) (k : A -> res B) : res B :=
  match r with Ok a => k a | Raise e => Raise e end.

Definition PyM (A : Type) := world -> res A * world.

Definition ret {A} (a : A) : PyM A := fun w => (Ok a, w).
Definition raise {A} (e : exn) : PyM A := fun w => (Raise e, w).
Definition bind {A B} (m : PyM A) (k : A -> PyM B) : PyM B :=
  fun w => match m w with
           | (Ok a, w') => k a w'
           | (Raise e, w') => (Raise e, w')
           end.
Definition lift {A} (r : res A) : PyM A :=
  fun w => (r, w).
Definition get_world : PyM world := fun w => (Ok w, w).
Definition emit (e : event) : PyM unit :=
  fun w => (Ok tt, mkWorld (orbits w) (files w) (log w ++ [e])).

Notation "x <- m ;; k" := (bind m (fun x => k))
  (at level 100, m at next level, right associativity).
Notation "m ;; k" := (bind m (fun _ : unit => k))
  (at level 100, right associativity).

Fixpoint mapM {A B} (f : A -> PyM B) (l : list A) : PyM (list B) :=
  match l with
  | [] => ret []
  | x :: l' => y <- f x;; ys <- mapM f l';; ret (y :: ys)
  end.

(** [float(n)] for a NumPy int64 (round to nearest even). *)
Definition float_of_Z (n : Z) : float :=
  SF2Prim (SpecFloat.binary_normalize FloatOps.prec FloatOps.emax n 0 false).

(** [a[i]] for a Python list or 1-d NumPy array: negative indices count
    from the end, anything else out of range raises [IndexError]. *)
Definition np_index {A} (l : list A) (i : Z) : res A :=
  let n := Z.of_nat (length l) in
  let j := if (i <? 0)%Z then (n + i)%Z else i in
  if ((0 <=? j) && (j <? n))%Z then
    match l !! Z.to_nat j with Some a => Ok a | None => Raise IndexError end
  else Raise IndexError.

Fixpoint index_all {A} (l : list A) (is : list Z) : res (list A) :=
  match is with
  | [] => Ok []
  | i :: is' =>
      match np_index l i, index_all l is' with
      | Ok a, Ok r => Ok (a :: r)
      | Raise e, _ => Raise e
      | _, Raise e => Raise e
      end
  end.

(** [d[k]] on a dict whose items are listed in order. *)
Fixpoint assoc_get {V} (k : Z) (l : list (Z * V)) : option V :=
  match l with
  | [] => None
  | (k', v) :: l' => if (k =? k')%Z then Some v else assoc_get k l'
  end.

(* ------------------------------------------------------------------ *)
(** ** NumPy primitives used by the evaluator *)

(** [np.searchsorted(a, v, side="left")]: NumPy's left binary search
    ([npy_binsearch] with [side=left]): [min_idx = 0; max_idx = len];
    while [min_idx < max_idx], probe [mid = min + ((max - min) >> 1)] and
    move [min_idx = mid + 1] if [a[mid] < v], else [max_idx = mid].
    Each round shrinks [max - min], so [length a] rounds suffice. *)
Fixpoint bsearch_left (fuel : nat) (a : list Z) (v : Z) (lo hi : nat) : nat :=
  match fuel with
  | O => lo
  | S fuel' =>
      if (lo <? hi)%nat then
        let m := (lo + (hi - lo) / 2)%nat in
        if (nth m a 0 <? v)%Z then bsearch_left fuel' a v (S m) hi
        else bsearch_left fuel' a v lo m
      else lo
  end.

Definition searchsorted_left (a : list Z) (v : Z) : Z :=
  Z.of_nat (bsearch_left (length a) a v 0 (length a)).

(** [np.where(lower_diff < upper_diff, lower, upper)] *)
Fixpoint np_where_lt (ld ud lo up : list Z) : list Z :=
  match ld, ud, lo, up with
  | d1 :: ld', d2 :: ud', l :: lo', u :: up' =>
      (if (d1 <? d2)%Z then l else u) :: np_where_lt ld' ud' lo' up'
  | _, _, _, _ => []
  end.

(** [numpy.polynomial.polynomial.polyval(x, c)], Horner's scheme:
    [c0 = c[-1] + x*0], then [c0 = c[-i] + c0*x]. *)
Fixpoint horner (x : float) (c0 : float) (c' : list float) : float :=
  match c' with
  | [] => (c0 + x * 0)%float
  | c1 :: c'' => (c0 + horner x c1 c'' * x)%float
  end.

(** An empty coefficient list fails at [c[-1]]. *)
Definition polyval (x : float) (c : list float) : res float :=
  match c with
  | [] => Raise IndexError
  | c0 :: c' => Ok (horner x c0 c')
  end.

(** The dtype of the [times] array handed to [_locate_sat_vectorised]. *)
Inductive dtype := Int64 | Float64.

(** The arrays the evaluator builds: 1-d ([np.ones_like(times)],
    [np.array([])]) or 2-d ([np.array] of a non-empty list of triples). *)
Inductive ndarray := Arr1 (l : list float) | Arr2 (rows : list (list float)).

(** [out = np.ones_like(times); out[:] = np.nan]: the copy keeps the dtype
    of [times]; NaN cannot be stored into an int64 array. *)
Definition ones_like_nan (dt : dtype) (times : list Z) : res ndarray :=
  match dt with
  | Int64 => Raise ValueError
  | Float64 => Ok (Arr1 (repeat nan (length times)))
  end.

(** [np.array(list_of_rows)] *)
Definition np_array (rows : list (list float)) : ndarray :=
  match rows with [] => Arr1 [] | _ => Arr2 rows end.

(* ------------------------------------------------------------------ *)
(** ** Position evaluator: [SatelliteData._locate_sat_vectorised] *)

(** [predict_dim] for the three dimensions of [predict]:
    [scaled_time = (time - mid[0]) / scale[0]] and
    [polyval(scaled_time, poly_dict[dim]) * scale[n] + mid[n]]. *)
Definition eval_window (pd : window) (t : Z) : res (list float) :=
  let scaled_time := ((float_of_Z t - v_tm (mid pd)) / v_tm (scale pd))%float in
  match polyval scaled_time (cx pd), polyval scaled_time (cy pd),
        polyval scaled_time (cz pd) with
  | Ok px, Ok py, Ok pz =>
      Ok [(px * v_x (scale pd) + v_x (mid pd))%float;
          (py * v_y (scale pd) + v_y (mid pd))%float;
          (pz * v_z (scale pd) + v_z (mid pd))%float]
  | Raise e, _, _ | _, Raise e, _ | _, _, Raise e => Raise e
  end.

(** The local function [predict(i, time)]: [poly_dict = orbit[keys[i]]];
    a time outside [[lb, ub]] gives a warning and [[nan, nan, nan]]. *)
Definition predict (svid day : string) (orbit : winmap) (i t : Z)
    : PyM (list float) :=
  k <- lift (np_index (map fst orbit) i);;
  match assoc_get k orbit with
  | None => raise KeyError
  | Some pd =>
      if ((t >? ub pd) || (t <? lb pd))%Z then
        emit (WarnNoWindow svid day t);; ret [nan; nan; nan]
      else lift (eval_window pd t)
  end.

(** Lines 150-157 of [_locate_sat_vectorised]: the index of the window
    whose midpoint is nearest to each query time. *)
Definition nearest_window_idx (keys_int times : list Z) : res (list Z) :=
  let close := map (searchsorted_left keys_int) times in
  let lower := map (fun c => Z.max 0 (c - 1)) close in
  let upper := map (fun c => Z.min (Z.of_nat (length keys_int) - 1) c) close in
  rbind (index_all keys_int lower) (fun lower_keys =>
  rbind (index_all keys_int upper) (fun upper_keys =>
  let lower_diff := zip_with (fun k t => Z.abs (k - t)) lower_keys times in
  let upper_diff := zip_with (fun k t => Z.abs (k - t)) upper_keys times in
  Ok (np_where_lt lower_diff upper_diff lower upper))).

Definition _locate_sat_vectorised (day : string) (dt : dtype)
    (times : list Z) (svid : string) : PyM ndarray :=
  w <- get_world;;
  match orbits w !! day ≫= lookup svid with
  | None =>
      emit (WarnNoOrbit svid day);;
      lift (ones_like_nan dt times)
  | Some orbit =>
      let keys_int := map fst orbit in
      idx <- lift (nearest_window_idx keys_int times);;
      rows <- mapM (fun it => predict svid day orbit it.1 it.2) (zip idx times);;
      ret (np_array rows)
  end.

(* ------------------------------------------------------------------ *)
(** ** Batch evaluation: [SatelliteData._locate_sat] *)

Fixpoint insert_str (s : string) (l : list string) : list string :=
  match l with
  | [] => [s]
  | s' :: l' =>
      match String.compare s s' with
      | Lt => s :: l
      | Eq => l
      | Gt => s' :: insert_str s l'
      end
  end.

(** [np.unique] of an array of strings: sorted, without duplicates. *)
Definition np_unique (l : list string) : list string :=
  fold_right insert_str [] l.

(** [output[mask, :] = result]: the value is broadcast to the selected
    [k x 3] block.  A 2-d value must have [k] rows (or one row) of 3; a 1-d
    value of length [m] broadcasts along the last axis, so only [m = 3]
    or [m = 1] fit; anything else raises [ValueError]. *)
Definition broadcast_rows (k : nat) (r : ndarray) : res (list (list float)) :=
  match r with
  | Arr2 rows =>
      if forallb (fun row => length row =? 3) rows then
        if length rows =? k then Ok rows
        else match rows with [row] => Ok (repeat row k) | _ => Raise ValueError end
      else Raise ValueError
  | Arr1 l =>
      match l with
      | [_; _; _] => Ok (repeat l k)
      | [a] => Ok (repeat [a; a; a] k)
      | _ => Raise ValueError
      end
  end.

(** Write the rows [vals] into the masked rows of [out], in order. *)
Fixpoint assign_masked (mask : list bool) (out vals : list (list float))
    : list (list float) :=
  match mask, out with
  | true :: mask', o :: out' =>
      match vals with
      | v :: vals' => v :: assign_masked mask' out' vals'
      | [] => o :: assign_masked mask' out' []
      end
  | false :: mask', o :: out' => o :: assign_masked mask' out' vals
  | _, _ => out
  end.

Fixpoint select_masked {A} (mask : list bool) (l : list A) : list A :=
  match mask, l with
  | true :: mask', a :: l' => a :: select_masked mask' l'
  | false :: mask', _ :: l' => select_masked mask' l'
  | _, _ => []
  end.

(** One iteration of the double loop: [mask = (day == d) & (svid == s)]. *)
Definition locate_group (day : list string) (dt : dtype) (time : list Z)
    (svid : list string) (d s : string) (out : list (list float))
    : PyM (list (list float)) :=
  let mask := zip_with (fun dd ss => bool_decide (dd = d) && bool_decide (ss = s))
                day svid in
  let k := length (filter (fun b : bool => b) mask) in
  result <- _locate_sat_vectorised d dt (select_masked mask time) s;;
  vals <- lift (broadcast_rows k result);;
  ret (assign_masked mask out vals).

Fixpoint foldM {A B} (f : A -> B -> PyM A) (a : A) (l : list B) : PyM A :=
  match l with
  | [] => ret a
  | b :: l' => a' <- f a b;; foldM f a' l'
  end.

Definition _locate_sat (day : list string) (dt : dtype) (time : list Z)
    (svid : list string) : PyM (list (list float)) :=
  let output := repeat [nan; nan; nan] (length day) in
  foldM (fun out d =>
           foldM (fun out' s => locate_group day dt time svid d s out')
                 out (np_unique svid))
        output (np_unique day).

(* ------------------------------------------------------------------ *)
(** ** Orbit fitter: [_poly_lagrange] and [_create_orbit] *)

(** A row of the per-satellite frame [orbits[["tm", "x", "y", "z"]]]. *)
Record sample := mkSample { s_tm : Z; s_x : float; s_y : float; s_z : float }.

(** A row as the float64 Series that [iloc[j, :]] returns. *)
Definition row_vec (r : sample) : vec4 :=
  mkVec4 (float_of_Z (s_tm r)) (s_x r) (s_y r) (s_z r).

Definition vec_sub (a b : vec4) : vec4 :=
  mkVec4 (v_tm a - v_tm b)%float (v_x a - v_x b)%float
         (v_y a - v_y b)%float (v_z a - v_z b)%float.

(** A row of [scaled_data = (data_var - mid) / scale]. *)
Definition scale_row (m s : vec4) (r : sample) : vec4 :=
  let v := vec_sub (row_vec r) m in
  mkVec4 (v_tm v / v_tm s)%float (v_x v / v_x s)%float
         (v_y v / v_y s)%float (v_z v / v_z s)%float.

(** Python slicing [l[a:b]] for [0 <= a]. *)
Definition py_slice {A} (a b : Z) (l : list A) : list A :=
  firstn (Z.to_nat b - Z.to_nat a) (skipn (Z.to_nat a) l).

Section Fitter.

(** [scipy.interpolate.lagrange(x, w)] followed by
    [np.asarray(...).tolist()]: the coefficients of the interpolating
    polynomial, highest degree first.  It is SciPy's code, not this
    repository's, and the fitter is stated for any such function. *)
Variable lagrange : list float -> list float -> list float.

Definition _poly_lagrange (i : Z) (alldata : list sample) : res (Z * window) :=
  if ((i <? 3) || (i >? Z.of_nat (length alldata) - 5))%Z then Raise ValueError
  else
    match py_slice (i - 3) (i + 5) alldata with
    | [r0; r1; r2; r3; r4; r5; r6; r7] as data_var =>
        let m := row_vec r3 in
        let sc := vec_sub (row_vec r7) (row_vec r0) in
        let scaled_data := map (scale_row m sc) data_var in
        let coefs (dim : vec4 -> float) :=
          rev (lagrange (map v_tm scaled_data) (map dim scaled_data)) in
        (* the key [mid.tolist()[0]] is [float(tm)] of the centre row,
           read back as the int64 [tm] by the evaluator *)
        Ok (s_tm r3,
            mkWindow (s_tm r0) (s_tm r7) m sc (coefs v_x) (coefs v_y) (coefs v_z))
    | _ => Raise IndexError
    end.

(** [list(range(start, stop, step))] for [step > 0]. *)
Definition py_range (start stop step : Z) : list Z :=
  map (fun k => start + step * Z.of_nat k)%Z
      (seq 0 (Z.to_nat ((stop - start + step - 1) / step))).

(** [d[k] = v] on a dict kept as an ordered item list: an existing key
    keeps its position. *)
Fixpoint dict_set {V} (k : Z) (v : V) (l : list (Z * V)) : list (Z * V) :=
  match l with
  | [] => [(k, v)]
  | (k', v') :: l' =>
      if (k =? k')%Z then (k, v) :: l' else (k', v') :: dict_set k v l'
  end.

Fixpoint fit_windows (idxs : list Z) (orbits : list sample) (acc : winmap)
    : res winmap :=
  match idxs with
  | [] => Ok acc
  | i :: idxs' =>
      rbind (_poly_lagrange i orbits) (fun kv =>
        fit_windows idxs' orbits (dict_set kv.1 kv.2 acc))
  end.

(** The centre indices of one satellite's windows:
    [idxs = list(range(3, len(orbits) - 5, 4))], then
    [if idxs[-1] != len(orbits) - 5: idxs.append(len(orbits) - 5)]. *)
Definition window_centres (n : Z) : res (list Z) :=
  let idxs := py_range 3 (n - 5) 4 in
  rbind (np_index idxs (-1)) (fun last =>
    Ok (if (last =? n - 5)%Z then idxs else idxs ++ [(n - 5)%Z])).

(** The body of the [for id_ in ...] loop of [_create_orbit]: the windows
    [polyXYZ[id_]] of one satellite's time-sorted series. *)
Definition fit_satellite (orbits : list sample) : res winmap :=
  rbind (window_centres (Z.of_nat (length orbits))) (fun idxs =>
    fit_windows idxs orbits []).


(** A row of the frame built by [_get_sp3_dataframe] (columns [date],
    [time], [svid], [x], [y], [z]; [epoch] and [clockerror] are unused). *)
Record sp3row := mkSp3row {
  r_date : string; r_time : Z; r_svid : string;
  r_x : float; r_y : float; r_z : float
}.

(** [int(s)] on a string of decimal digits; anything else (including "")
    raises [ValueError].  [get_date] only produces digit strings. *)
Definition py_int_digits (s : string) : res Z :=
  let ds := String.list_ascii_of_string s in
  if bool_decide (ds = []) then Raise ValueError
  else if forallb (fun c => Ascii.leb "0"%char c && Ascii.leb c "9"%char) ds then
    Ok (fold_left (fun acc c =>
          (10 * acc + Z.of_nat (Ascii.nat_of_ascii c - 48))%Z) ds 0%Z)
  else Raise ValueError.

(** [sp3_df["date"].str[4:].astype(int)] for one row. *)
Definition row_day (r : sp3row) : res Z :=
  py_int_digits (String.substring 4 (String.length (r_date r) - 4) (r_date r)).

Fixpoint mapR {A B} (f : A -> res B) (l : list A) : res (list B) :=
  match l with
  | [] => Ok []
  | a :: l' => rbind (f a) (fun b => rbind (mapR f l') (fun bs => Ok (b :: bs)))
  end.

(** [min(day)]: [ValueError] on an empty series. *)
Definition py_min (l : list Z) : res Z :=
  match l with [] => Raise ValueError | z :: l' => Ok (fold_left Z.min l' z) end.

(** Order of [sort_values(["svid", "tm"])]. *)
Definition svid_tm_le (a b : string * sample) : bool :=
  match String.compare a.1 b.1 with
  | Lt => true
  | Gt => false
  | Eq => (s_tm a.2 <=? s_tm b.2)%Z
  end.

Fixpoint insert_by {A} (le : A -> A -> bool) (a : A) (l : list A) : list A :=
  match l with
  | [] => [a]
  | b :: l' => if le a b then a :: l else b :: insert_by le a l'
  end.

Definition sort_by {A} (le : A -> A -> bool) (l : list A) : list A :=
  fold_right (insert_by le) [] l.

(** [sp3_df["svid"].unique()]: first-appearance order. *)
Fixpoint unique_in_order (seen : list string) (l : list string) : list string :=
  match l with
  | [] => []
  | s :: l' =>
      if bool_decide (s ∈ seen) then unique_in_order seen l'
      else s :: unique_in_order (s :: seen) l'
  end.

(** [_create_orbit(sp3_df)]: the [tm] column shifts each row's time by whole
    days past the earliest date; rows are sorted by [(svid, tm)] and each
    satellite's series is fitted in turn.  Result: [polyXYZ], svid ->
    (midpoint -> window) in insertion order. *)
Definition _create_orbit (sp3_df : list sp3row) : res (gmap string winmap) :=
  rbind (mapR row_day sp3_df) (fun day =>
  rbind (py_min day) (fun dmin =>
    let tagged := zip_with (fun r d =>
          (r_svid r,
           mkSample (r_time r + (d - dmin) * 24 * 3600 * 10 ^ 9)%Z
                    (r_x r) (r_y r) (r_z r))) sp3_df day in
    let sorted := sort_by svid_tm_le tagged in
    fold_left (fun acc id_ =>
        rbind acc (fun polyXYZ =>
          let orbits := map snd (filter (fun p => bool_decide (p.1 = id_)) sorted) in
          rbind (fit_satellite orbits) (fun dic =>
            Ok (match dic with [] => polyXYZ | _ => <[id_ := dic]> polyXYZ end))))
      (unique_in_order [] (map fst sorted)) (Ok ∅))).

End Fitter.


(** *** SciPy's [lagrange], used to run the fitter on concrete data

    [scipy.interpolate.lagrange(x, w)] builds
    [sum_j w[j] * prod_(k <> j) poly1d([1, -x[k]]) / (x[j] - x[k])]
    with [numpy.poly1d] arithmetic (coefficients highest degree first,
    leading zeros trimmed). *)

Fixpoint trim_leading (c : list float) : list float :=
  match c with
  | [] => []
  | a :: c' => if (a =? 0)%float then trim_leading c' else c
  end.

(** [numpy.poly1d(c).coeffs] *)
Definition poly1d (c : list float) : list float :=
  match trim_leading c with [] => [0%float] | c' => c' end.

(** [numpy.polyadd]: the shorter operand is padded in front. *)
Definition polyadd (a b : list float) : list float :=
  let la := length a in
  let lb := length b in
  poly1d (zip_with PrimFloat.add (repeat 0%float (lb - la) ++ a)
                                 (repeat 0%float (la - lb) ++ b)).

(** [numpy.convolve] of two coefficient lists. *)
Fixpoint convolve (a b : list float) : list float :=
  match a with
  | [] => []
  | [x] => map (PrimFloat.mul x) b
  | x :: a' =>
      zip_with PrimFloat.add (map (PrimFloat.mul x) b ++ repeat 0%float (length a'))
                             (0%float :: convolve a' b)
  end.

Definition polymul (a b : list float) : list float := poly1d (convolve a b).

Definition scipy_lagrange (x w : list float) : list float :=
  let M := length x in
  fold_left (fun p j =>
      let pt := fold_left (fun pt k =>
            if (k =? j)%nat then pt
            else
              let fac := (nth j x 0 - nth k x 0)%float in
              polymul pt (poly1d (map (fun c => c / fac)%float
                                      (poly1d [1%float; (- nth k x 0)%float]))))
          (seq 0 M) (poly1d [nth j w 0%float]) in
      polyadd p pt)
    (seq 0 M) (poly1d [0%float]).

(* ------------------------------------------------------------------ *)
(** ** Orbit store and updater: [_load_orbit], [_save_orbit], [_update_orbits] *)

(** [try: m  except: h] (a bare [except] catches every exception). *)
Definition py_try {A} (m h : PyM A) : PyM A :=
  fun w => match m w with
           | (Ok a, w') => (Ok a, w')
           | (Raise _, w') => h w'
           end.

Fixpoint mapM_ {A} (f : A -> PyM unit) (l : list A) : PyM unit :=
  match l with
  | [] => ret tt
  | a :: l' => f a;; mapM_ f l'
  end.

(** [self.metadata]: the days of the files [orbits_<day>.json] present in
    the [data.orbits] package. *)
Definition metadata (w : world) : gset string := dom (files w).

(** [_load_orbit(day)]: the parsed record, or [dict()] when opening the
    file raises [OSError] (no record for that day). *)
Definition _load_orbit (day : string) : PyM daymodel :=
  fun w => (Ok (default ∅ (files w !! day)), w).

(** [_save_orbit(day, data_var)]: write the record of [day]. *)
Definition _save_orbit (day : string) (data_var : daymodel) : PyM unit :=
  fun w => (Ok tt, mkWorld (orbits w) (<[day := data_var]> (files w)) (log w)).

(** [self.orbits[day] = m] *)
Definition set_orbits (day : string) (m : daymodel) : PyM unit :=
  fun w => (Ok tt, mkWorld (<[day := m]> (orbits w)) (files w) (log w)).

(** [OrderedDict(sorted(dic.items()))]: items ordered by midpoint (the keys
    of one dict are distinct, so the values are never compared). *)
Definition sort_items (dic : winmap) : winmap :=
  sort_by (fun a b => (a.1 <=? b.1)%Z) dic.

Section Updater.

Variable lagrange : list float -> list float -> list float.

(** [_get_sp3_file(date, orbit_type)] downloads and decompresses a product
    file; [None] stands for any exception it raises (network, missing
    product, decompression). *)
Variable get_sp3_file : string -> string -> option string.

(** [_get_sp3_dataframe(sp3)]: the parser of the SP3 text. *)
Variable get_sp3_dataframe : string -> list sp3row.

Definition fetch (day tier : string) : PyM string :=
  emit (Fetch day tier);;
  match get_sp3_file day tier with
  | Some sp3 => ret sp3
  | None => raise DownloadError
  end.

(** The nested [try/except] of [_update_orbits]: final, then rapid, then
    ultra; the ultra call is not guarded. *)
Definition acquire (day : string) : PyM string :=
  py_try (fetch day "final")
    (emit WarnFinal;;
     py_try (fetch day "rapid")
       (emit WarnRapid;;
        fetch day "ultra")).

(** One iteration of [for day in missing_days] ([print] calls omitted). *)
Definition build_day (day : string) : PyM unit :=
  sp3 <- acquire day;;
  let df := get_sp3_dataframe sp3 in
  unsorted_orbit <- lift (_create_orbit lagrange df);;
  let orbit_dic := sort_items <$> unsorted_orbit in
  _save_orbit day orbit_dic.

(** One iteration of the final [for day in days_] loop. *)
Definition cache_day (day : string) : PyM unit :=
  w <- get_world;;
  if bool_decide (day ∈ dom (orbits w)) then ret tt
  else m <- _load_orbit day;; set_orbits day m.

(** [_update_orbits(days)].  [days_ = set(days)]: a Python set iterates in
    an unspecified order, taken here as first-appearance order. *)
Definition _update_orbits (days : list string) : PyM unit :=
  let days_ := unique_in_order [] days in
  w <- get_world;;
  let missing_days := filter (fun d => d ∉ metadata w) days_ in
  mapM_ build_day missing_days;;
  mapM_ cache_day days_.

End Updater.


(* ------------------------------------------------------------------ *)
(** ** Vocabulary of the statements *)

(** An ordered window map has strictly increasing midpoint keys. *)
Definition increasing (a : list Z) : Prop :=
  forall i j, (i < j < length a)%nat -> (nth i a 0 < nth j a 0)%Z.

(** The search for one query time. *)
Definition nearest1 (keys_int : list Z) (t : Z) : Z :=
  let c := searchsorted_left keys_int t in
  let lo := Z.max 0 (c - 1) in
  let up := Z.min (Z.of_nat (length keys_int) - 1) c in
  if (Z.abs (nth (Z.to_nat lo) keys_int 0 - t) <?
      Z.abs (nth (Z.to_nat up) keys_int 0 - t))%Z then lo else up.

(** A decision procedure for [increasing]: adjacent keys increase. *)
Fixpoint increasingb (a : list Z) : bool :=
  match a with
  | x :: ((y :: _) as a') => (x <? y)%Z && increasingb a'
  | _ => true
  end.

Definition sample0 : sample := mkSample 0 0 0 0.

(** A one-satellite sample table: [n] epochs of one day at times
    [0, 300, 600, ...] with coordinates [xs k], [ys k], [zs k]. *)
Definition series_rows (svid : string) (xs ys zs : nat -> float) (n : nat)
    : list sp3row :=
  map (fun k => mkSp3row "2020042" (300 * Z.of_nat k)%Z svid (xs k) (ys k) (zs k))
      (seq 0 n).

(** The (midpoint, lb, ub) of each window fitted for [svid]. *)
Definition window_bounds (r : res (gmap string winmap)) (svid : string)
    : option (list (Z * Z * Z)) :=
  match r with
  | Ok m => map (fun kw => (kw.1, lb kw.2, ub kw.2)) <$> m !! svid
  | Raise _ => None
  end.

(** A window that can be evaluated: its three coefficient lists are
    non-empty. *)
Definition has_coefs (kw : Z * window) : Prop :=
  cx kw.2 <> [] /\ cy kw.2 <> [] /\ cz kw.2 <> [].

(** The last coefficient of a [numpy.poly1d] coefficient list (its
    constant term) is a NaN. *)
Definition last_is_nan (l : list float) : Prop :=
  exists c, last l = Some c /\ Prim2SF c = S754_nan.

(** [sd.orbits[day]] on the [defaultdict(dict)]: an absent day is
    inserted with an empty model. *)
Definition orbits_getitem (day : string) : PyM daymodel :=
  fun w => match orbits w !! day with
           | Some m => (Ok m, w)
           | None => (Ok ∅, mkWorld (<[day := ∅]> (orbits w)) (files w) (log w))
           end.

(* ------------------------------------------------------------------ *)
(** ** File names of the orbit store *)

(** Characters are ASCII here: file names and the SP3 text are ASCII. *)

(** [_get_filename(day)] *)
Definition _get_filename (day : string) : string :=
  String.append "orbits_" (String.append day ".json").

(** A separator of [re.split(r"_|\.", f)]. *)
Definition is_re_split_sep (c : ascii) : bool :=
  Ascii.eqb c "_" || Ascii.eqb c ".".

Fixpoint re_split_aux (s cur : string) : list string :=
  match s with
  | EmptyString => [cur]
  | String c s' =>
      if is_re_split_sep c then cur :: re_split_aux s' EmptyString
      else re_split_aux s' (String.append cur (String c EmptyString))
  end.

(** [re.split(r"_|\.", f)] *)
Definition re_split (f : string) : list string := re_split_aux f EmptyString.

(** [SatelliteData.metadata] over the listing [contents] of the
    [data.orbits] package ([importlib.resources.contents]):
    [re.match("orbits_", f)] tests a prefix, and [[1]] raises
    [IndexError] on a list of length one. *)
Definition metadata_of_contents (contents : list string) : res (gset string) :=
  let filenames := filter (fun f => String.prefix "orbits_" f = true) contents in
  rbind (mapR (fun f => np_index (re_split f) 1) filenames) (fun days =>
    Ok (list_to_set days)).

(* ------------------------------------------------------------------ *)
(** ** Fetching an SP3 product *)

(** [filename.rsplit(".", maxsplit=1)] *)
Fixpoint rsplit_dot (s : string) : list string :=
  match s with
  | EmptyString => [EmptyString]
  | String c s' =>
      match rsplit_dot s' with
      | [tail] => if Ascii.eqb c "." then [EmptyString; tail] else [String c tail]
      | [pre; suf] => [String c pre; suf]
      | _ => []
      end
  end.

Section Sp3File.

(** [_sp3_filename_date_conversion(date)] followed by [str(...["week"][0])]
    and [str(...["day"][0])]: GPS week and day of week of a [YYYYdoy] date
    ([gnssmapper.common.time], not part of this file). *)
Variable gps_week_day : string -> res (string * string).

(** The local copy of [filename] in [data.sp3] as bytes
    ([importlib.resources.read_binary]), downloaded from the given URL by
    [urllib.request.urlretrieve] first when it is not a resource; the URL
    is only built ([Raise]) when it is needed. *)
Variable obtain : string -> res string -> res (list Byte.byte).

(** [gzip.decompress], [unlzw3.unlzw] and [bytes.decode("utf-8")]. *)
Variable gzip_decompress : list Byte.byte -> res (list Byte.byte).
Variable unlzw : list Byte.byte -> res (list Byte.byte).
Variable decode_utf8 : list Byte.byte -> res string.

(** [_sp3_filename[orbit_type](date)]; an unknown key raises [KeyError]. *)
Definition _sp3_filename (orbit_type date : string) : res string :=
  if String.eqb orbit_type "ultra" then
    rbind (gps_week_day date) (fun wd =>
      Ok (String.append "esu" (String.append wd.1 (String.append wd.2 "_00.sp3.Z"))))
  else if String.eqb orbit_type "rapid" then
    Ok (String.append "GBM0MGXRAP_" (String.append date "0000_01D_05M_ORB.SP3.gz"))
  else if String.eqb orbit_type "final" then
    Ok (String.append "ESA0MGNFIN_" (String.append date "0000_01D_05M_ORB.SP3.gz"))
  else Raise KeyError.

(** [_sp3_datasite[orbit_type]] *)
Definition _sp3_datasite (orbit_type : string) : res string :=
  if String.eqb orbit_type "ultra" then
    Ok "http://navigation-office.esa.int/products/gnss-products/"
  else if String.eqb orbit_type "rapid" then
    Ok "ftp://ftp.gfz-potsdam.de/GNSS/products/mgnss/"
  else if String.eqb orbit_type "final" then
    Ok "http://navigation-office.esa.int/products/gnss-products/"
  else Raise KeyError.

(** [_sp3_filepath(date)] *)
Definition _sp3_filepath (date : string) : res string :=
  rbind (gps_week_day date) (fun wd => Ok (String.append wd.1 "/")).

Definition _get_sp3_file (date orbit_type : string) : res string :=
  rbind (_sp3_filename orbit_type date) (fun filename =>
  rbind (_sp3_datasite orbit_type) (fun datasite =>
  let url := rbind (_sp3_filepath date) (fun p =>
               Ok (String.append datasite (String.append p filename))) in
  rbind (obtain filename url) (fun zipfile =>
  rbind (np_index (rsplit_dot filename) 1) (fun extension =>
  rbind (if String.eqb extension "gz" then gzip_decompress zipfile else unlzw zipfile)
    decode_utf8)))).

End Sp3File.

(* ------------------------------------------------------------------ *)
(** ** Parsing an SP3 text *)

(** The line boundaries of [str.splitlines] among ASCII characters:
    [\n], [\r], [\v], [\f], [\x1c], [\x1d], [\x1e] ([\r\n] is one). *)
Definition is_line_break (c : ascii) : bool :=
  existsb (Ascii.eqb c) ["010"; "013"; "011"; "012"; "028"; "029"; "030"]%char.

Fixpoint splitlines_aux (s cur : string) : list string :=
  match s with
  | EmptyString => if String.eqb cur EmptyString then [] else [cur]
  | String c s' =>
      if Ascii.eqb c "013" then
        match s' with
        | String c' s'' =>
            if Ascii.eqb c' "010" then cur :: splitlines_aux s'' EmptyString
            else cur :: splitlines_aux s' EmptyString
        | EmptyString => cur :: splitlines_aux s' EmptyString
        end
      else if is_line_break c then cur :: splitlines_aux s' EmptyString
      else splitlines_aux s' (String.append cur (String c EmptyString))
  end.

(** [sp3.splitlines()] *)
Definition splitlines (s : string) : list string := splitlines_aux s EmptyString.

(** The exceptions the parsing loop can end with: one of the helpers' or
    [line[0]]'s, or [UnboundLocalError] when a [P] line comes before any
    epoch header has bound [date] and [time]. *)
Inductive sp3_exn := PyExn (e : exn) | UnboundLocalError.

Inductive sp3_res (A : Type) := POk (a : A) | PRaise (e : sp3_exn).
Arguments POk {A} a.
Arguments PRaise {A} e.

(** One entry of [results]: [[epoch, date, time] + getXYS(line)]. *)
Record sp3_line_row := mkSp3LineRow {
  p_epoch : Z; p_date : string; p_time : Z;
  p_svid : string; p_x : float; p_y : float; p_z : float; p_clock : float
}.

(** The loop's variables: [results], [epoch], and [date] and [time]
    ([None] while unbound). *)
Record sp3_state := mkSp3State {
  st_results : list sp3_line_row; st_epoch : Z;
  st_date : option string; st_time : option Z
}.

Section Sp3Parser.

(** The nested helpers [get_date], [get_time] and [getXYS] of
    [_get_sp3_dataframe]; they slice fixed columns and convert them with
    [int], [float] and [pd.Timestamp], which raise on malformed text. *)
Variable get_date : string -> res string.
Variable get_time : string -> res Z.
Variable getXYS : string -> res (string * float * float * float * float).

(** [if line[:2] == "* ": ...] *)
Definition sp3_header_step (line : string) (st : sp3_state) : sp3_res sp3_state :=
  if String.prefix "* " line then
    match get_date line with
    | Raise e => PRaise (PyExn e)
    | Ok date =>
        match get_time line with
        | Raise e => PRaise (PyExn e)
        | Ok time => POk (mkSp3State (st_results st) (st_epoch st + 1) (Some date) (Some time))
        end
    end
  else POk st.

(** [if line[0] == "P": ...]: [getXYS(line)] runs before [date] and
    [time] are read. *)
Definition sp3_position_step (line : string) (st : sp3_state) : sp3_res sp3_state :=
  match line with
  | EmptyString => PRaise (PyExn IndexError)
  | String c _ =>
      if Ascii.eqb c "P" then
        match getXYS line with
        | Raise e => PRaise (PyExn e)
        | Ok (svid, x, y, z, clk) =>
            match st_date st, st_time st with
            | Some date, Some time =>
                POk (mkSp3State
                       (st_results st ++
                        [mkSp3LineRow (st_epoch st) date time svid x y z clk])
                       (st_epoch st) (st_date st) (st_time st))
            | _, _ => PRaise UnboundLocalError
            end
        end
      else POk st
  end.

Fixpoint sp3_loop (lines : list string) (st : sp3_state) : sp3_res sp3_state :=
  match lines with
  | [] => POk st
  | line :: lines' =>
      match sp3_header_step line st with
      | PRaise e => PRaise e
      | POk st1 =>
          match sp3_position_step line st1 with
          | PRaise e => PRaise e
          | POk st2 => sp3_loop lines' st2
          end
      end
  end.

(** [_get_sp3_dataframe(sp3)]: the rows of the frame, in order. *)
Definition _get_sp3_dataframe (sp3 : string) : sp3_res (list sp3_line_row) :=
  match sp3_loop (splitlines sp3) (mkSp3State [] 0 None None) with
  | POk st => POk (st_results st)
  | PRaise e => PRaise e
  end.

End Sp3Parser.

(* ------------------------------------------------------------------ *)
(** ** Properties of the nearest-window search *)


Lemma increasing_le a i j :
  increasing a -> (i <= j < length a)%nat -> (nth i a 0 <= nth j a 0)%Z.
Proof.
  intros Ha Hij. destruct (Nat.eq_dec i j) as [->|Hne]; [lia|].
  specialize (Ha i j ltac:(lia)). lia.
Qed.

Lemma bsearch_left_bounds fuel a v lo hi :
  (lo <= hi)%nat -> (lo <= bsearch_left fuel a v lo hi <= hi)%nat.
Proof.
  revert lo hi. induction fuel as [|fuel IH]; intros lo hi Hle; cbn [bsearch_left]; [lia|].
  destruct (lo <? hi)%nat eqn:Hlt; [|lia].
  apply Nat.ltb_lt in Hlt.
  assert ((hi - lo) / 2 < hi - lo)%nat by (apply Nat.div_lt; lia).
  destruct (nth _ a 0 <? v)%Z.
  - specialize (IH (S (lo + (hi - lo) / 2)) hi ltac:(lia)). lia.
  - specialize (IH lo (lo + (hi - lo) / 2) ltac:(lia)). lia.
Qed.

(** The loop invariant of the left binary search on a sorted array: every
    element left of [lo] is [< v], every element from [hi] on is [>= v]. *)
Lemma bsearch_left_spec fuel a v lo hi :
  increasing a -> (lo <= hi <= length a)%nat -> (hi - lo <= fuel)%nat ->
  (forall i, (i < lo)%nat -> (nth i a 0 < v)%Z) ->
  (forall i, (hi <= i < length a)%nat -> (v <= nth i a 0)%Z) ->
  let r := bsearch_left fuel a v lo hi in
  (forall i, (i < r)%nat -> (nth i a 0 < v)%Z) /\
  (forall i, (r <= i < length a)%nat -> (v <= nth i a 0)%Z).
Proof.
  intros Ha. revert lo hi.
  induction fuel as [|fuel IH]; intros lo hi Hb Hf Hlo Hhi; cbn [bsearch_left].
  - assert (lo = hi) by lia. subst. auto.
  - destruct (lo <? hi)%nat eqn:Hlt; [|apply Nat.ltb_ge in Hlt; assert (lo = hi) by lia; subst; auto].
    apply Nat.ltb_lt in Hlt.
    set (m := (lo + (hi - lo) / 2)%nat).
    assert (Hm : (lo <= m < hi)%nat).
    { subst m. assert ((hi - lo) / 2 < hi - lo)%nat by (apply Nat.div_lt; lia). lia. }
    destruct (nth m a 0 <? v)%Z eqn:Hc.
    + apply Z.ltb_lt in Hc. apply IH; [lia|lia| |exact Hhi].
      intros i Hi. destruct (Nat.lt_ge_cases i lo) as [Hil|Hil]; [auto|].
      pose proof (increasing_le a i m Ha ltac:(lia)). lia.
    + apply Z.ltb_ge in Hc. apply IH; [lia|lia|exact Hlo|].
      intros i Hi. pose proof (increasing_le a m i Ha ltac:(lia)). lia.
Qed.

Lemma searchsorted_left_spec a v :
  increasing a ->
  let r := Z.to_nat (searchsorted_left a v) in
  (r <= length a)%nat /\
  (forall i, (i < r)%nat -> (nth i a 0 < v)%Z) /\
  (forall i, (r <= i < length a)%nat -> (v <= nth i a 0)%Z).
Proof.
  intros Ha. unfold searchsorted_left. rewrite Nat2Z.id.
  pose proof (bsearch_left_bounds (length a) a v 0 (length a) ltac:(lia)).
  pose proof (bsearch_left_spec (length a) a v 0 (length a) Ha
                ltac:(lia) ltac:(lia) ltac:(lia) ltac:(lia)) as [H1 H2].
  repeat split; auto. lia.
Qed.

Lemma searchsorted_left_range a v :
  (0 <= searchsorted_left a v <= Z.of_nat (length a))%Z.
Proof.
  unfold searchsorted_left.
  pose proof (bsearch_left_bounds (length a) a v 0 (length a) ltac:(lia)). lia.
Qed.

Lemma np_index_in_range (l : list Z) i :
  (0 <= i < Z.of_nat (length l))%Z -> np_index l i = Ok (nth (Z.to_nat i) l 0%Z).
Proof.
  intros Hi. unfold np_index.
  destruct (i <? 0)%Z eqn:Hneg; [apply Z.ltb_lt in Hneg; lia|].
  destruct ((0 <=? i) && (i <? Z.of_nat (length l)))%Z eqn:Hc;
    [|apply andb_false_iff in Hc as [Hc|Hc];
      [apply Z.leb_gt in Hc|apply Z.ltb_ge in Hc]; lia].
  destruct (l !! Z.to_nat i) eqn:E.
  - apply nth_lookup_Some with (d := 0%Z) in E. by rewrite E.
  - apply lookup_ge_None in E. lia.
Qed.

Lemma index_all_in_range (l : list Z) is :
  Forall (fun i => 0 <= i < Z.of_nat (length l))%Z is ->
  index_all l is = Ok (map (fun i => nth (Z.to_nat i) l 0%Z) is).
Proof.
  induction 1 as [|i is Hi His IH]; [done|].
  cbn [index_all map]. by rewrite np_index_in_range, IH.
Qed.


Lemma nearest_window_idx_map keys_int times :
  keys_int <> [] ->
  nearest_window_idx keys_int times = Ok (map (nearest1 keys_int) times).
Proof.
  intros Hne.
  assert (Hn : (1 <= Z.of_nat (length keys_int))%Z)
    by (destruct keys_int; [done|simpl; lia]).
  unfold nearest_window_idx.
  rewrite !index_all_in_range.
  2, 3: rewrite !Forall_map; apply Forall_forall; intros t _;
        pose proof (searchsorted_left_range keys_int t); lia.
  simpl. f_equal.
  induction times as [|t times IH]; [done|]. simpl. rewrite IH. done.
Qed.

Lemma nearest1_range keys_int t :
  keys_int <> [] ->
  (0 <= nearest1 keys_int t <= Z.of_nat (length keys_int) - 1)%Z.
Proof.
  intros Hne.
  assert (Hn : (1 <= Z.of_nat (length keys_int))%Z)
    by (destruct keys_int; [done|simpl; lia]).
  pose proof (searchsorted_left_range keys_int t).
  unfold nearest1. destruct (_ <? _)%Z; lia.
Qed.

Lemma nearest1_before_first keys_int t :
  keys_int <> [] -> increasing keys_int ->
  (t < nth 0 keys_int 0)%Z -> nearest1 keys_int t = 0%Z.
Proof.
  intros Hne Ha Ht.
  destruct (searchsorted_left_spec keys_int t Ha) as (Hle & Hlt & _).
  assert (Hr : searchsorted_left keys_int t = 0%Z).
  { pose proof (searchsorted_left_range keys_int t).
    destruct (Z.to_nat (searchsorted_left keys_int t)) eqn:E; [lia|].
    specialize (Hlt 0%nat ltac:(lia)). lia. }
  unfold nearest1. rewrite Hr.
  assert (Hn : (1 <= Z.of_nat (length keys_int))%Z)
    by (destruct keys_int; [done|simpl; lia]).
  replace (Z.max 0 (0 - 1)) with 0%Z by lia.
  replace (Z.min (Z.of_nat (length keys_int) - 1) 0) with 0%Z by lia.
  by destruct (_ <? _)%Z.
Qed.

Lemma nearest1_after_last keys_int t :
  keys_int <> [] -> increasing keys_int ->
  (nth (length keys_int - 1) keys_int 0 < t)%Z ->
  nearest1 keys_int t = (Z.of_nat (length keys_int) - 1)%Z.
Proof.
  intros Hne Ha Ht.
  assert (Hn : (1 <= length keys_int)%nat) by (destruct keys_int; [done|simpl; lia]).
  destruct (searchsorted_left_spec keys_int t Ha) as (Hle & _ & Hge).
  pose proof (searchsorted_left_range keys_int t).
  assert (Hr : searchsorted_left keys_int t = Z.of_nat (length keys_int)).
  { destruct (Nat.lt_ge_cases (Z.to_nat (searchsorted_left keys_int t)) (length keys_int)).
    - specialize (Hge (length keys_int - 1)%nat ltac:(lia)). lia.
    - lia. }
  unfold nearest1. rewrite Hr.
  replace (Z.max 0 (Z.of_nat (length keys_int) - 1)) with (Z.of_nat (length keys_int) - 1)%Z by lia.
  replace (Z.min (Z.of_nat (length keys_int) - 1) (Z.of_nat (length keys_int)))
    with (Z.of_nat (length keys_int) - 1)%Z by lia.
  by destruct (_ <? _)%Z.
Qed.

(** Equidistant query between two adjacent midpoints: the candidate at the
    insertion point (the later window) wins, since [np.where] keeps the
    lower candidate only when its distance is strictly smaller. *)
Lemma nearest1_tie_upper keys_int t j :
  increasing keys_int -> (S j < length keys_int)%nat ->
  (t - nth j keys_int 0 = nth (S j) keys_int 0 - t)%Z ->
  nearest1 keys_int t = Z.of_nat (S j).
Proof.
  intros Ha Hj Ht.
  pose proof (Ha j (S j) ltac:(lia)) as Hk.
  destruct (searchsorted_left_spec keys_int t Ha) as (Hle & Hlt & Hge).
  pose proof (searchsorted_left_range keys_int t).
  assert (Hr : searchsorted_left keys_int t = Z.of_nat (S j)).
  { destruct (Nat.lt_trichotomy (Z.to_nat (searchsorted_left keys_int t)) (S j))
      as [Hc|[Hc|Hc]].
    - specialize (Hge j ltac:(lia)). lia.
    - lia.
    - specialize (Hlt (S j) Hc). lia. }
  unfold nearest1. rewrite Hr.
  replace (Z.max 0 (Z.of_nat (S j) - 1)) with (Z.of_nat j) by lia.
  replace (Z.min (Z.of_nat (length keys_int) - 1) (Z.of_nat (S j))) with (Z.of_nat (S j)) by lia.
  rewrite !Nat2Z.id.
  destruct (Z.abs (nth j keys_int 0 - t) <? Z.abs (nth (S j) keys_int 0 - t))%Z eqn:E;
    [apply Z.ltb_lt in E; lia|done].
Qed.


Lemma increasingb_sound a : increasingb a = true -> increasing a.
Proof.
  induction a as [|x a IH]; intros Hb i j Hij; [simpl in Hij; lia|].
  destruct a as [|y a]; [simpl in Hij; lia|].
  cbn [increasingb] in Hb. apply andb_true_iff in Hb as [Hxy Hb].
  apply Z.ltb_lt in Hxy. specialize (IH Hb).
  destruct i as [|i]; destruct j as [|j]; [lia| | lia|].
  - simpl. destruct j as [|j]; [done|].
    specialize (IH 0%nat (S j) ltac:(simpl in *; lia)). simpl in IH. lia.
  - apply (IH i j). simpl in *. lia.
Qed.

(* ------------------------------------------------------------------ *)
(** ** Claims about the nearest-window search *)

(** C10: on a non-empty ordered window map, the search of
    [_locate_sat_vectorised] (lines 150-157) never fails: every selected
    index lies in [[0, number_of_windows - 1]]; a query before the first
    midpoint selects the first window and one after the last midpoint
    selects the last window. *)
Theorem nearest_window_clamped (keys_int times : list Z) :
  keys_int <> [] -> increasing keys_int ->
  exists idx, nearest_window_idx keys_int times = Ok idx /\
    Forall2 (fun t i =>
      (0 <= i <= Z.of_nat (length keys_int) - 1)%Z /\
      ((t < nth 0 keys_int 0)%Z -> i = 0%Z) /\
      ((nth (length keys_int - 1) keys_int 0 < t)%Z ->
         i = (Z.of_nat (length keys_int) - 1)%Z))
      times idx.
Proof.
  intros Hne Ha. exists (map (nearest1 keys_int) times).
  split; [by apply nearest_window_idx_map|].
  induction times as [|t times IH]; constructor; [|exact IH].
  split; [by apply nearest1_range|]. split.
  - by apply nearest1_before_first.
  - by apply nearest1_after_last.
Qed.

Lemma nearest_window_clamped_witness :
  ([0; 10; 20]%Z <> [] /\ increasing [0; 10; 20]%Z) /\
  nearest_window_idx [0; 10; 20]%Z [-5; 25; 12]%Z = Ok [0; 2; 1]%Z /\
  exists idx, nearest_window_idx [0; 10; 20]%Z [-5; 25; 12]%Z = Ok idx /\
    Forall2 (fun t i =>
      (0 <= i <= Z.of_nat (length [0; 10; 20]%Z) - 1)%Z /\
      ((t < nth 0 [0; 10; 20]%Z 0)%Z -> i = 0%Z) /\
      ((nth (length [0; 10; 20]%Z - 1) [0; 10; 20]%Z 0 < t)%Z ->
         i = (Z.of_nat (length [0; 10; 20]%Z) - 1)%Z))
      [-5; 25; 12]%Z idx.
Proof.
  split; [split; [discriminate|apply increasingb_sound; reflexivity]|].
  split; [vm_compute; reflexivity|].
  apply nearest_window_clamped; [discriminate|apply increasingb_sound; reflexivity].
Defined.

(** C2 (as stated, refuted): midpoints 0 and 10, query time 5, equidistant
    from both: the search selects index 1, the later window, not the
    earlier one. *)
Lemma nearest_window_tie_cex :
  nearest_window_idx [0; 10]%Z [5%Z] = Ok [1%Z] /\
  nearest_window_idx [0; 10]%Z [5%Z] <> Ok [0%Z].
Proof. vm_compute. split; [reflexivity|discriminate]. Qed.

(** C2 (amended): for a query time exactly equidistant between two
    adjacent midpoints [k_j < k_(j+1)] of an ordered window map, the
    search deterministically selects the later window [j + 1] (the
    candidate at the insertion point). *)
Theorem nearest_window_tie_later (keys_int times : list Z) (j : nat) :
  increasing keys_int -> (S j < length keys_int)%nat ->
  exists idx, nearest_window_idx keys_int times = Ok idx /\
    forall p t, times !! p = Some t ->
      (t - nth j keys_int 0 = nth (S j) keys_int 0 - t)%Z ->
      idx !! p = Some (Z.of_nat (S j)).
Proof.
  intros Ha Hj. exists (map (nearest1 keys_int) times).
  split; [apply nearest_window_idx_map; destruct keys_int; simpl in Hj; [lia|done]|].
  intros p t Hp Ht. rewrite list_lookup_fmap, Hp. simpl.
  by rewrite (nearest1_tie_upper keys_int t j Ha Hj Ht).
Qed.

Lemma nearest_window_tie_later_witness :
  (increasing [0; 10; 20]%Z /\ (1 < length [0; 10; 20]%Z)%nat) /\
  exists idx, nearest_window_idx [0; 10; 20]%Z [5%Z; 15%Z] = Ok idx /\
    forall p t, [5%Z; 15%Z] !! p = Some t ->
      (t - nth 0 [0; 10; 20]%Z 0 = nth 1 [0; 10; 20]%Z 0 - t)%Z ->
      idx !! p = Some (Z.of_nat 1).
Proof.
  split; [split; [apply increasingb_sound; reflexivity|simpl; lia]|].
  apply (nearest_window_tie_later [0; 10; 20]%Z [5%Z; 15%Z] 0);
    [apply increasingb_sound; reflexivity|simpl; lia].
Defined.

(* ------------------------------------------------------------------ *)
(** ** Claims about the evaluator *)

(** C7: for a query row of a satellite/day with data, whose selected index
    [i] resolves to the window [pd], a time strictly outside
    [[lb pd, ub pd]] yields [[nan, nan, nan]] and one warning, and no
    evaluation; a time inside, bounds included, is evaluated by the window
    polynomial and raises no warning. *)
Theorem predict_bounds svid day orbit i t k pd w :
  np_index (map fst orbit) i = Ok k -> assoc_get k orbit = Some pd ->
  (((t < lb pd)%Z \/ (ub pd < t)%Z) ->
     predict svid day orbit i t w =
       (Ok [nan; nan; nan],
        mkWorld (orbits w) (files w) (log w ++ [WarnNoWindow svid day t]))) /\
  ((lb pd <= t <= ub pd)%Z ->
     predict svid day orbit i t w = (eval_window pd t, w)).
Proof.
  intros Hk Hpd. unfold predict, bind, lift. rewrite Hk, Hpd.
  split.
  - intros Hout.
    replace ((t >? ub pd) || (t <? lb pd))%Z with true
      by (symmetry; apply orb_true_iff;
          destruct Hout; [right; apply Z.ltb_lt | left; apply Z.gtb_lt]; lia).
    reflexivity.
  - intros Hin.
    replace ((t >? ub pd) || (t <? lb pd))%Z with false
      by (symmetry; apply orb_false_iff; split;
          [rewrite Z.gtb_ltb; apply Z.ltb_ge | apply Z.ltb_ge]; lia).
    reflexivity.
Qed.

Lemma predict_bounds_witness :
  let pd := mkWindow 0 2100 (mkVec4 900 0 0 0) (mkVec4 2100 1 1 1) [1%float] [2%float] [3%float] in
  (np_index (map fst [(900%Z, pd)]) 0 = Ok 900%Z /\ assoc_get 900%Z [(900%Z, pd)] = Some pd) /\
  predict "G01" "2020042" [(900%Z, pd)] 0 2101 (mkWorld ∅ ∅ []) =
    (Ok [nan; nan; nan], mkWorld ∅ ∅ [WarnNoWindow "G01" "2020042" 2101]) /\
  predict "G01" "2020042" [(900%Z, pd)] 0 2100 (mkWorld ∅ ∅ []) =
    (Ok [1%float; 2%float; 3%float], mkWorld ∅ ∅ []).
Proof.
  intros pd. split; [split; reflexivity|].
  destruct (predict_bounds "G01" "2020042" [(900%Z, pd)] 0 2101 900 pd (mkWorld ∅ ∅ [])
              eq_refl eq_refl) as [Hout _].
  destruct (predict_bounds "G01" "2020042" [(900%Z, pd)] 0 2100 900 pd (mkWorld ∅ ∅ [])
              eq_refl eq_refl) as [_ Hin].
  split.
  - rewrite Hout; [reflexivity|simpl; lia].
  - rewrite Hin; [vm_compute; reflexivity|simpl; lia].
Defined.

(** C1 (code defect): for a pair absent from the model,
    [_locate_sat_vectorised] returns [np.ones_like(times)] filled with NaN:
    one NaN per row (a 1-d array), not a NaN triple per row, and for int64
    times it raises when storing NaN.  [_locate_sat] then fails to
    broadcast the 1-d array into the [k x 3] block of the output. *)
Lemma missing_pair_not_triples :
  _locate_sat_vectorised "2020042" Float64 [0; 300]%Z "G01" (mkWorld ∅ ∅ []) =
    (Ok (Arr1 [nan; nan]), mkWorld ∅ ∅ [WarnNoOrbit "G01" "2020042"]) /\
  fst (_locate_sat_vectorised "2020042" Int64 [0; 300]%Z "G01" (mkWorld ∅ ∅ [])) =
    Raise ValueError /\
  fst (_locate_sat ["2020042"; "2020042"] Float64 [0; 300]%Z ["G01"; "G01"]
         (mkWorld ∅ ∅ [])) = Raise ValueError.
Proof. vm_compute. repeat split. Qed.

(* ------------------------------------------------------------------ *)
(** ** Claims about the fitter *)


Lemma skipn_nth_cons {A} (l : list A) k d :
  (k < length l)%nat -> skipn k l = nth k l d :: skipn (S k) l.
Proof.
  revert k. induction l as [|a l IH]; intros k Hk; simpl in Hk; [lia|].
  destruct k as [|k]; [reflexivity|]. simpl. apply IH. lia.
Qed.

Lemma firstn_skipn_nth {A} (l : list A) k n d :
  (k + n <= length l)%nat ->
  firstn n (skipn k l) = map (fun j => nth (k + j) l d) (seq 0 n).
Proof.
  revert k. induction n as [|n IH]; intros k Hk; [reflexivity|].
  rewrite (skipn_nth_cons l k d) by lia. simpl.
  rewrite Nat.add_0_r, IH by lia. f_equal.
  rewrite <- seq_shift, map_map. apply map_ext. intros j. f_equal. lia.
Qed.

(** C6: for a centre index [3 <= i <= len - 5], [_poly_lagrange] takes
    exactly the samples [i-3 .. i+4] ([iloc[i-3:i+5]]); the window has
    [lb] = time of the first, [ub] = time of the 8th, [mid] = the 4th
    sample's (time, x, y, z), [scale] = 8th minus 1st componentwise, and
    its coefficients are computed from the rescaled 8 samples only. *)
Theorem poly_lagrange_window lagrange (i : Z) (alldata : list sample) :
  (3 <= i <= Z.of_nat (length alldata) - 5)%Z ->
  let r (j : nat) := nth (Z.to_nat i - 3 + j) alldata sample0 in
  let data_var := py_slice (i - 3) (i + 5) alldata in
  let m := row_vec (r 3%nat) in
  let sc := vec_sub (row_vec (r 7%nat)) (row_vec (r 0%nat)) in
  let sd := map (scale_row m sc) data_var in
  data_var = map r (seq 0 8) /\
  _poly_lagrange lagrange i alldata =
    Ok (s_tm (r 3%nat),
        mkWindow (s_tm (r 0%nat)) (s_tm (r 7%nat)) m sc
          (rev (lagrange (map v_tm sd) (map v_x sd)))
          (rev (lagrange (map v_tm sd) (map v_y sd)))
          (rev (lagrange (map v_tm sd) (map v_z sd)))).
Proof.
  intros Hi r data_var m sc sd.
  assert (Hdv : data_var = map r (seq 0 8)).
  { subst data_var r. unfold py_slice.
    replace (Z.to_nat (i + 5) - Z.to_nat (i - 3))%nat with 8%nat by lia.
    replace (Z.to_nat (i - 3)) with (Z.to_nat i - 3)%nat by lia.
    apply firstn_skipn_nth. lia. }
  split; [exact Hdv|].
  unfold _poly_lagrange.
  replace ((i <? 3) || (i >? Z.of_nat (length alldata) - 5))%Z with false
    by (symmetry; apply orb_false_iff; split;
        [apply Z.ltb_ge | rewrite Z.gtb_ltb; apply Z.ltb_ge]; lia).
  fold data_var. unfold sd. rewrite Hdv. reflexivity.
Qed.

Lemma poly_lagrange_window_witness :
  let alldata := map (fun k => mkSample (300 * Z.of_nat k) (float_of_Z (Z.of_nat (k * k))) 2 3)
                     (seq 0 12) in
  (3 <= 7 <= Z.of_nat (length alldata) - 5)%Z /\
  exists win, _poly_lagrange scipy_lagrange 7 alldata = Ok (2100%Z, win) /\
    lb win = 1200%Z /\ ub win = 3300%Z.
Proof.
  intros alldata. split; [vm_compute; split; discriminate|].
  destruct (poly_lagrange_window scipy_lagrange 7 alldata ltac:(vm_compute; split; discriminate))
    as [_ ->].
  eexists. split; [reflexivity|]. split; vm_compute; reflexivity.
Defined.

(** C4 (as stated, refuted): for the 12-sample series at times
    0, 300, ..., 3300 the second window is fitted from samples 4..11, so its
    lower bound is 1200, not 600. *)
Lemma create_orbit_12_cex :
  let rows := series_rows "G01" (fun k => float_of_Z (Z.of_nat (k * k)))
                (fun _ => 2%float) (fun _ => 3%float) 12 in
  window_bounds (_create_orbit scipy_lagrange rows) "G01" =
    Some [(900, 0, 2100); (2100, 1200, 3300)]%Z /\
  window_bounds (_create_orbit scipy_lagrange rows) "G01" <>
    Some [(900, 0, 2100); (2100, 600, 3300)]%Z.
Proof. vm_compute. split; [reflexivity|discriminate]. Qed.

(** C4 (amended): whatever the coordinates and the interpolation routine,
    the 12-sample series gets exactly two windows, centred at sample
    indices 3 and 7 (midpoints 900 and 2100, the second being the forced
    tail window), with bounds [0, 2100] and [1200, 3300]. *)
Theorem create_orbit_12 lagrange (xs ys zs : nat -> float) :
  window_centres 12 = Ok [3; 7]%Z /\
  exists w1 w2,
    _create_orbit lagrange (series_rows "G01" xs ys zs 12) =
      Ok {[ "G01" := [(900%Z, w1); (2100%Z, w2)] ]} /\
    lb w1 = 0%Z /\ ub w1 = 2100%Z /\ lb w2 = 1200%Z /\ ub w2 = 3300%Z.
Proof.
  split; [reflexivity|].
  eexists _, _. split; [vm_compute; reflexivity|].
  repeat split; reflexivity.
Qed.

Lemma py_range_bounds start stop step x :
  (0 < step)%Z -> x ∈ py_range start stop step -> (start <= x < stop)%Z.
Proof.
  intros Hs Hx. unfold py_range in Hx.
  apply list_elem_of_fmap in Hx as (k & -> & Hk).
  apply list_elem_of_In, in_seq in Hk.
  pose proof (Z.mul_div_le (stop - start + step - 1) step Hs).
  nia.
Qed.

Lemma py_range_nonempty start stop step :
  (0 < step)%Z -> (start < stop)%Z -> py_range start stop step <> [].
Proof.
  intros Hs Hlt. unfold py_range.
  assert (1 <= (stop - start + step - 1) / step)%Z.
  { apply Z.div_le_lower_bound; lia. }
  destruct (Z.to_nat ((stop - start + step - 1) / step)) eqn:E; [lia|].
  simpl. discriminate.
Qed.

Lemma dict_set_nonempty {V} k (v : V) l : dict_set k v l <> [].
Proof. destruct l as [|[k' v'] l]; simpl; [|destruct (k =? k')%Z]; discriminate. Qed.

Lemma py_slice_window (i : Z) (alldata : list sample) :
  (3 <= i <= Z.of_nat (length alldata) - 5)%Z ->
  py_slice (i - 3) (i + 5) alldata =
    map (fun j => nth (Z.to_nat i - 3 + j) alldata sample0) (seq 0 8).
Proof.
  intros Hi. unfold py_slice.
  replace (Z.to_nat (i + 5) - Z.to_nat (i - 3))%nat with 8%nat by lia.
  replace (Z.to_nat (i - 3)) with (Z.to_nat i - 3)%nat by lia.
  apply firstn_skipn_nth. lia.
Qed.

(** [_poly_lagrange] succeeds on every centre index [3 <= i <= len - 5];
    its key is the centre sample's time and its bounds the times of the
    samples [i - 3] and [i + 4]. *)
Lemma poly_lagrange_ok lagrange (i : Z) (alldata : list sample) :
  (3 <= i <= Z.of_nat (length alldata) - 5)%Z ->
  exists pd, _poly_lagrange lagrange i alldata =
    Ok (s_tm (nth (Z.to_nat i) alldata sample0), pd) /\
    lb pd = s_tm (nth (Z.to_nat i - 3) alldata sample0) /\
    ub pd = s_tm (nth (Z.to_nat i + 4) alldata sample0).
Proof.
  intros Hi. unfold _poly_lagrange.
  replace ((i <? 3) || (i >? Z.of_nat (length alldata) - 5))%Z with false
    by (symmetry; apply orb_false_iff; split;
        [apply Z.ltb_ge | rewrite Z.gtb_ltb; apply Z.ltb_ge]; lia).
  rewrite py_slice_window by done. simpl.
  rewrite !Nat.add_0_r.
  replace (Z.to_nat i - 3 + 3)%nat with (Z.to_nat i) by lia.
  replace (Z.to_nat i - 3 + 7)%nat with (Z.to_nat i + 4)%nat by lia.
  eexists. split; [reflexivity|]. split; reflexivity.
Qed.

Lemma fit_windows_ok lagrange idxs orbits acc :
  Forall (fun i => 3 <= i <= Z.of_nat (length orbits) - 5)%Z idxs ->
  (acc <> [] \/ idxs <> []) ->
  exists ws, fit_windows lagrange idxs orbits acc = Ok ws /\ ws <> [].
Proof.
  intros Hall. revert acc.
  induction Hall as [|i idxs Hi Hall IH]; intros acc Hne.
  - exists acc. destruct Hne; [done|done].
  - cbn [fit_windows].
    destruct (poly_lagrange_ok lagrange i orbits Hi) as (pd & -> & _). simpl.
    apply IH. left. apply dict_set_nonempty.
Qed.

Lemma np_index_last (l : list Z) : l <> [] -> exists a, np_index l (-1) = Ok a.
Proof.
  intros Hne. destruct l as [|a l] using rev_ind; [done|].
  exists a. unfold np_index. rewrite length_app. simpl.
  replace (Z.of_nat (length l + 1) + -1)%Z with (Z.of_nat (length l)) by lia.
  replace ((0 <=? Z.of_nat (length l)) && (Z.of_nat (length l) <? Z.of_nat (length l + 1)))%Z
    with true by (symmetry; apply andb_true_iff; split; [apply Z.leb_le|apply Z.ltb_lt]; lia).
  rewrite Nat2Z.id, lookup_app_r, Nat.sub_diag by lia. reflexivity.
Qed.

(** C5 (as stated, refuted): a satellite with 7 samples makes
    [_create_orbit] raise ([idxs[-1]] on an empty list). *)
Lemma create_orbit_short_cex :
  _create_orbit scipy_lagrange
    (series_rows "G01" (fun _ => 1%float) (fun _ => 2%float) (fun _ => 3%float) 7)
  = Raise IndexError.
Proof. vm_compute. reflexivity. Qed.

(** C5 (amended): fitting a satellite series of fewer than 8 samples raises
    [IndexError] (no window, and the error is not absorbed); a series of at
    least 9 samples gets at least one window. *)
Theorem fit_satellite_sizes lagrange (orbits : list sample) :
  ((length orbits < 8)%nat -> fit_satellite lagrange orbits = Raise IndexError) /\
  ((9 <= length orbits)%nat ->
     exists ws, fit_satellite lagrange orbits = Ok ws /\ ws <> []).
Proof.
  unfold fit_satellite, window_centres. split.
  - intros Hn.
    assert (Hq : ((Z.of_nat (length orbits) - 5 - 3 + 4 - 1) / 4 < 1)%Z)
      by (apply Z.div_lt_upper_bound; lia).
    unfold py_range.
    destruct (Z.to_nat ((Z.of_nat (length orbits) - 5 - 3 + 4 - 1) / 4)) eqn:E; [|lia].
    reflexivity.
  - intros Hn.
    set (n := Z.of_nat (length orbits)).
    set (idxs := py_range 3 (n - 5) 4).
    assert (Hr : forall x, x ∈ idxs -> (3 <= x < n - 5)%Z)
      by (intros x Hx; apply (py_range_bounds 3 (n - 5) 4); [lia|exact Hx]).
    assert (Hne : idxs <> []) by (apply py_range_nonempty; lia).
    destruct (np_index_last idxs Hne) as [last Hl]. rewrite Hl.
    simpl. apply fit_windows_ok; [|right; destruct (last =? n - 5)%Z; [done|]].
    + apply Forall_forall. intros x Hx.
      destruct (last =? n - 5)%Z.
      * specialize (Hr x Hx). lia.
      * apply elem_of_app in Hx as [Hx|Hx].
        -- specialize (Hr x Hx). lia.
        -- apply list_elem_of_singleton in Hx. subst x. unfold n. lia.
    + destruct idxs; simpl; discriminate.
Qed.

Lemma fit_satellite_sizes_witness :
  let short := map (fun k => mkSample (300 * Z.of_nat k) 1 2 3) (seq 0 7) in
  let long := map (fun k => mkSample (300 * Z.of_nat k) 1 2 3) (seq 0 9) in
  ((length short < 8)%nat /\ fit_satellite scipy_lagrange short = Raise IndexError) /\
  ((9 <= length long)%nat /\
   exists ws, fit_satellite scipy_lagrange long = Ok ws /\ ws <> []).
Proof.
  intros short long. split.
  - split; [simpl; lia|].
    apply (proj1 (fit_satellite_sizes scipy_lagrange short)). simpl; lia.
  - split; [simpl; lia|].
    apply (proj2 (fit_satellite_sizes scipy_lagrange long)). simpl; lia.
Defined.

(* ------------------------------------------------------------------ *)
(** ** Claims about the updater *)

Section UpdaterProofs.

Variable lagrange : list float -> list float -> list float.
Variable get_sp3_file : string -> string -> option string.
Variable get_sp3_dataframe : string -> list sp3row.

Lemma acquire_eq day w :
  acquire get_sp3_file day w =
  match get_sp3_file day "final" with
  | Some sp3 => (Ok sp3, mkWorld (orbits w) (files w) (log w ++ [Fetch day "final"]))
  | None =>
    match get_sp3_file day "rapid" with
    | Some sp3 =>
        (Ok sp3, mkWorld (orbits w) (files w)
                   (log w ++ [Fetch day "final"; WarnFinal; Fetch day "rapid"]))
    | None =>
      match get_sp3_file day "ultra" with
      | Some sp3 =>
          (Ok sp3, mkWorld (orbits w) (files w)
                     (log w ++ [Fetch day "final"; WarnFinal; Fetch day "rapid";
                                WarnRapid; Fetch day "ultra"]))
      | None =>
          (Raise DownloadError, mkWorld (orbits w) (files w)
                     (log w ++ [Fetch day "final"; WarnFinal; Fetch day "rapid";
                                WarnRapid; Fetch day "ultra"]))
      end
    end
  end.
Proof.
  unfold acquire, py_try, fetch, bind, emit, ret, raise. simpl.
  destruct (get_sp3_file day "final"); [reflexivity|].
  destruct (get_sp3_file day "rapid"); [simpl; by rewrite <- !app_assoc|].
  destruct (get_sp3_file day "ultra"); simpl; by rewrite <- !app_assoc.
Qed.

(** [build_day d] leaves the cache alone and writes at most the record of
    [d]. *)
Lemma build_day_frame d w r w' :
  build_day lagrange get_sp3_file get_sp3_dataframe d w = (r, w') ->
  orbits w' = orbits w /\
  (files w' = files w \/ exists m, files w' = <[d := m]> (files w)) /\
  (r = Ok tt -> d ∈ dom (files w')).
Proof.
  intros E. unfold build_day, bind, lift, _save_orbit in E. rewrite acquire_eq in E.
  destruct (get_sp3_file d "final") as [sp3|];
    [|destruct (get_sp3_file d "rapid") as [sp3|];
      [|destruct (get_sp3_file d "ultra") as [sp3|]]];
    simpl in E;
    [destruct (_create_orbit lagrange (get_sp3_dataframe sp3)) as [m|e]..|];
    injection E as <- <-; simpl;
    solve [ split; [done|]; split; [right; eexists; reflexivity|];
            intros _; rewrite dom_insert_L; set_solver
          | split; [done|]; split; [left; done|discriminate] ].
Qed.

Lemma build_day_all_fail d w :
  get_sp3_file d "final" = None -> get_sp3_file d "rapid" = None ->
  get_sp3_file d "ultra" = None ->
  fst (build_day lagrange get_sp3_file get_sp3_dataframe d w) = Raise DownloadError /\
  files (snd (build_day lagrange get_sp3_file get_sp3_dataframe d w)) = files w.
Proof.
  intros Hf Hr Hu. unfold build_day, bind. rewrite !acquire_eq, Hf, Hr, Hu.
  split; reflexivity.
Qed.

Lemma mapM_build_day_fails d l w :
  d ∈ l -> d ∉ dom (files w) ->
  get_sp3_file d "final" = None -> get_sp3_file d "rapid" = None ->
  get_sp3_file d "ultra" = None ->
  let r := mapM_ (build_day lagrange get_sp3_file get_sp3_dataframe) l w in
  (exists e, fst r = Raise e) /\ orbits (snd r) = orbits w /\ d ∉ dom (files (snd r)).
Proof.
  intros Hd Hw Hf Hr Hu. revert w Hw.
  induction l as [|x l IH]; intros w Hw; [set_solver|].
  cbv zeta. cbn [mapM_]. unfold bind.
  destruct (build_day _ _ _ x w) as [r1 w1] eqn:E.
  destruct (build_day_frame x w r1 w1 E) as (Ho & Hfl & _).
  destruct (decide (x = d)) as [->|Hxd].
  - destruct (build_day_all_fail d w Hf Hr Hu) as [He Hfs].
    rewrite E in He, Hfs. simpl in He, Hfs. subst r1.
    simpl. split; [eauto|]. split; [done|]. by rewrite Hfs.
  - destruct r1 as [u|e].
    + destruct u. assert (Hw' : d ∉ dom (files w1)).
      { destruct Hfl as [->|[m ->]]; [done|]. rewrite dom_insert_L. set_solver. }
      destruct (IH ltac:(set_solver) w1 Hw') as (He & Ho' & Hd').
      split; [done|]. split; [by rewrite Ho'|done].
    + simpl. split; [eauto|]. split; [done|].
      destruct Hfl as [->|[m ->]]; [done|]. rewrite dom_insert_L. set_solver.
Qed.



End UpdaterProofs.

Lemma unique_in_order_elem x seen l :
  x ∈ l -> x ∉ seen -> x ∈ unique_in_order seen l.
Proof.
  revert seen. induction l as [|s l IH]; intros seen Hx Hs; [set_solver|].
  simpl. case_bool_decide as Hin.
  - apply IH; [|done]. apply elem_of_cons in Hx as [->|Hx]; [done|done].
  - apply elem_of_cons in Hx as [->|Hx]; [set_solver|].
    destruct (decide (x = s)) as [->|Hne]; [set_solver|].
    apply elem_of_cons. right. apply IH; set_solver.
Qed.


Lemma unique_in_order_sub x seen l :
  x ∈ unique_in_order seen l -> x ∈ l.
Proof.
  revert seen. induction l as [|s l IH]; intros seen Hx; [set_solver|].
  simpl in Hx. case_bool_decide.
  - apply elem_of_cons. right. by apply (IH seen).
  - apply elem_of_cons in Hx as [->|Hx]; [set_solver|].
    apply elem_of_cons. right. by apply (IH (s :: seen)).
Qed.



(** Claim C3 (counterexample): a missing day for which the final, rapid
    and ultra products are all unavailable.  The three tiers are tried in
    order, but the ultra failure is not caught: [_update_orbits] raises,
    instead of completing with the day left unbuilt. *)
Lemma update_orbits_all_tiers_fail_cex :
  _update_orbits scipy_lagrange (fun _ _ => None) (fun _ => [])
    ["2020042"] (mkWorld ∅ ∅ []) =
  (Raise DownloadError,
   mkWorld ∅ ∅ [Fetch "2020042" "final"; WarnFinal; Fetch "2020042" "rapid";
                WarnRapid; Fetch "2020042" "ultra"]).
Proof. vm_compute. reflexivity. Qed.

(** Claim C3 (amended): for every day, acquisition tries the final, rapid
    and ultra products in this order, stops at the first that is available,
    and logs one warning for each failure of the final and of the rapid
    product.  If all three fail for a requested day with no persisted
    record, the ultra failure propagates: [_update_orbits] raises, the
    in-memory cache is unchanged and the day gets no persisted record. *)
Theorem update_orbits_tiers (lagrange : list float -> list float -> list float)
    (get : string -> string -> option string) (parse : string -> list sp3row) :
  (forall day w,
     acquire get day w =
     match get day "final" with
     | Some sp3 => (Ok sp3, mkWorld (orbits w) (files w) (log w ++ [Fetch day "final"]))
     | None =>
       match get day "rapid" with
       | Some sp3 =>
           (Ok sp3, mkWorld (orbits w) (files w)
                      (log w ++ [Fetch day "final"; WarnFinal; Fetch day "rapid"]))
       | None =>
         match get day "ultra" with
         | Some sp3 =>
             (Ok sp3, mkWorld (orbits w) (files w)
                        (log w ++ [Fetch day "final"; WarnFinal; Fetch day "rapid";
                                   WarnRapid; Fetch day "ultra"]))
         | None =>
             (Raise DownloadError, mkWorld (orbits w) (files w)
                        (log w ++ [Fetch day "final"; WarnFinal; Fetch day "rapid";
                                   WarnRapid; Fetch day "ultra"]))
         end
       end
     end) /\
  (forall days d w,
     d ∈ days -> d ∉ metadata w ->
     get d "final" = None -> get d "rapid" = None -> get d "ultra" = None ->
     let r := _update_orbits lagrange get parse days w in
     (exists e, fst r = Raise e) /\ orbits (snd r) = orbits w /\
     d ∉ metadata (snd r)).
Proof.
  split; [intros; apply acquire_eq|].
  intros days d w Hd Hm Hf Hr Hu. cbv zeta.
  assert (Hin : d ∈ filter (fun d => d ∉ metadata w) (unique_in_order [] days)).
  { apply list_elem_of_filter. split; [done|]. apply unique_in_order_elem; set_solver. }
  pose proof (mapM_build_day_fails lagrange get parse d _ w Hin Hm Hf Hr Hu) as Hfail.
  cbv zeta in Hfail. unfold _update_orbits, get_world, bind. simpl.
  destruct (mapM_ (build_day lagrange get parse) _ w) as [r1 w1] eqn:E.
  destruct Hfail as ((e & He) & Ho & Hn). simpl in He, Ho, Hn.
  subst r1. simpl. unfold metadata. split; [eauto|done].
Qed.

Lemma update_orbits_tiers_witness :
  (exists e, fst (_update_orbits scipy_lagrange (fun _ _ => None) (fun _ => [])
                    ["2020042"] (mkWorld ∅ ∅ [])) = Raise e) /\
  orbits (snd (_update_orbits scipy_lagrange (fun _ _ => None) (fun _ => [])
                 ["2020042"] (mkWorld ∅ ∅ []))) = ∅.
Proof.
  destruct (proj2 (update_orbits_tiers scipy_lagrange (fun _ _ => None) (fun _ => []))
              ["2020042"] "2020042" (mkWorld ∅ ∅ []))
    as (H1 & H2 & _); try reflexivity.
  - apply list_elem_of_singleton. reflexivity.
  - unfold metadata. simpl. rewrite dom_empty_L. apply not_elem_of_empty.
  - split; [exact H1 | exact H2].
Defined.




(* ------------------------------------------------------------------ *)
(** ** Further properties of the evaluator *)

Lemma nearest1_nearest keys_int t j :
  keys_int <> [] -> increasing keys_int -> (j < length keys_int)%nat ->
  (Z.abs (nth (Z.to_nat (nearest1 keys_int t)) keys_int 0 - t) <=
   Z.abs (nth j keys_int 0 - t))%Z.
Proof.
  intros Hne Ha Hj.
  assert (Hn : (1 <= length keys_int)%nat) by (destruct keys_int; [done|simpl; lia]).
  destruct (searchsorted_left_spec keys_int t Ha) as (Hle & Hlt & Hge).
  pose proof (searchsorted_left_range keys_int t) as Hr.
  set (c := searchsorted_left keys_int t) in *.
  unfold nearest1. fold c.
  (* candidates: [c - 1] (below [t]) and [c] (at or above [t]) *)
  assert (Hlo : forall i, (i < Z.to_nat c)%nat ->
            (Z.abs (nth (Z.to_nat c - 1) keys_int 0 - t) <= Z.abs (nth i keys_int 0 - t))%Z).
  { intros i Hi. pose proof (Hlt i Hi). pose proof (Hlt (Z.to_nat c - 1)%nat ltac:(lia)).
    pose proof (increasing_le keys_int i (Z.to_nat c - 1) Ha ltac:(lia)). lia. }
  assert (Hup : forall i, (Z.to_nat c <= i < length keys_int)%nat ->
            (Z.abs (nth (Z.to_nat c) keys_int 0 - t) <= Z.abs (nth i keys_int 0 - t))%Z).
  { intros i Hi. pose proof (Hge i Hi). pose proof (Hge (Z.to_nat c) ltac:(lia)).
    pose proof (increasing_le keys_int (Z.to_nat c) i Ha ltac:(lia)). lia. }
  destruct (Z.eq_dec c 0) as [Hc0|Hc0].
  - rewrite Hc0 in *. replace (Z.max 0 (0 - 1)) with 0%Z by lia.
    replace (Z.min (Z.of_nat (length keys_int) - 1) 0) with 0%Z by lia.
    destruct (_ <? _)%Z; apply (Hup j); simpl; lia.
  - destruct (Z.eq_dec c (Z.of_nat (length keys_int))) as [Hcn|Hcn].
    + replace (Z.max 0 (c - 1)) with (Z.of_nat (length keys_int) - 1)%Z by lia.
      replace (Z.min (Z.of_nat (length keys_int) - 1) c)
        with (Z.of_nat (length keys_int) - 1)%Z by lia.
      destruct (_ <? _)%Z;
        replace (Z.to_nat (Z.of_nat (length keys_int) - 1)) with (Z.to_nat c - 1)%nat by lia;
        apply (Hlo j); lia.
    + replace (Z.max 0 (c - 1)) with (c - 1)%Z by lia.
      replace (Z.min (Z.of_nat (length keys_int) - 1) c) with c by lia.
      assert (Ec : Z.to_nat (c - 1) = (Z.to_nat c - 1)%nat) by lia.
      destruct (Nat.lt_ge_cases j (Z.to_nat c)) as [Hjc|Hjc].
      * pose proof (Hlo j Hjc).
        destruct (_ <? _)%Z eqn:E; cbv iota; rewrite Ec in *;
          [lia|apply Z.ltb_ge in E; lia].
      * pose proof (Hup j ltac:(lia)).
        destruct (_ <? _)%Z eqn:E; cbv iota; rewrite Ec in *;
          [apply Z.ltb_lt in E; lia|lia].
Qed.

(** The search of [_locate_sat_vectorised] selects, for every query time,
    a window whose midpoint is at least as close to that time as every
    other midpoint of the (non-empty, strictly increasing) window map. *)
Theorem nearest_window_is_nearest (keys_int times : list Z) :
  keys_int <> [] -> increasing keys_int ->
  exists idx, nearest_window_idx keys_int times = Ok idx /\
    Forall2 (fun t i =>
      (0 <= i < Z.of_nat (length keys_int))%Z /\
      forall j, (j < length keys_int)%nat ->
        (Z.abs (nth (Z.to_nat i) keys_int 0 - t) <= Z.abs (nth j keys_int 0 - t))%Z)
      times idx.
Proof.
  intros Hne Ha. exists (map (nearest1 keys_int) times).
  split; [by apply nearest_window_idx_map|].
  induction times as [|t times IH]; constructor; [|exact IH].
  pose proof (nearest1_range keys_int t Hne). split; [lia|].
  intros j Hj. by apply nearest1_nearest.
Qed.

Lemma nearest_window_is_nearest_witness :
  nearest_window_idx [0; 10; 30]%Z [-5; 4; 6; 21; 40]%Z = Ok [0; 0; 1; 2; 2]%Z /\
  exists idx, nearest_window_idx [0; 10; 30]%Z [-5; 4; 6; 21; 40]%Z = Ok idx /\
    Forall2 (fun t i =>
      (0 <= i < Z.of_nat (length [0; 10; 30]%Z))%Z /\
      forall j, (j < length [0; 10; 30]%Z)%nat ->
        (Z.abs (nth (Z.to_nat i) [0; 10; 30]%Z 0 - t) <=
         Z.abs (nth j [0; 10; 30]%Z 0 - t))%Z)
      [-5; 4; 6; 21; 40]%Z idx.
Proof.
  split; [vm_compute; reflexivity|].
  apply nearest_window_is_nearest; [discriminate|apply increasingb_sound; reflexivity].
Defined.

Lemma eval_window_ok pd t :
  cx pd <> [] -> cy pd <> [] -> cz pd <> [] ->
  exists r, eval_window pd t = Ok r /\ length r = 3%nat.
Proof.
  intros Hx Hy Hz. unfold eval_window, polyval.
  destruct (cx pd); [done|]. destruct (cy pd); [done|]. destruct (cz pd); [done|].
  eexists. split; reflexivity.
Qed.

Lemma assoc_get_in {V} k (l : list (Z * V)) :
  k ∈ map fst l -> exists v, assoc_get k l = Some v /\ (k, v) ∈ l.
Proof.
  induction l as [|[k' v'] l IH]; intros Hk; [set_solver|].
  simpl. destruct (k =? k')%Z eqn:E.
  - apply Z.eqb_eq in E. subst. exists v'. split; [done|set_solver].
  - apply Z.eqb_neq in E. simpl in Hk. apply elem_of_cons in Hk as [Hk|Hk]; [done|].
    destruct (IH Hk) as (v & Hv & Hin). exists v. split; [done|set_solver].
Qed.


Lemma predict_ok svid day (orbit : winmap) i t w :
  (0 <= i < Z.of_nat (length orbit))%Z -> Forall has_coefs orbit ->
  let r := predict svid day orbit i t w in
  (exists row, fst r = Ok row /\ length row = 3%nat) /\
  orbits (snd r) = orbits w /\ files (snd r) = files w.
Proof.
  intros Hi Hc. cbv zeta. unfold predict, bind, lift.
  rewrite np_index_in_range by (rewrite length_map; lia).
  destruct (assoc_get_in (nth (Z.to_nat i) (map fst orbit) 0%Z) orbit) as (pd & Hpd & Hin).
  { apply list_elem_of_In, nth_In. rewrite length_map. lia. }
  rewrite Hpd.
  rewrite Forall_forall in Hc. destruct (Hc _ Hin) as (Hx & Hy & Hz). simpl in Hx, Hy, Hz.
  destruct ((t >? ub pd) || (t <? lb pd))%Z.
  - unfold emit, ret. simpl. split; [eexists; split; reflexivity|done].
  - destruct (eval_window_ok pd t Hx Hy Hz) as (r & Hr & Hl). rewrite Hr.
    simpl. split; [eauto|done].
Qed.

Lemma mapM_predict_ok svid day (orbit : winmap) (its : list (Z * Z)) w :
  Forall (fun it => 0 <= it.1 < Z.of_nat (length orbit))%Z its ->
  Forall has_coefs orbit ->
  let r := mapM (fun it => predict svid day orbit it.1 it.2) its w in
  (exists rows, fst r = Ok rows /\ length rows = length its /\
     Forall (fun row => length row = 3%nat) rows) /\
  orbits (snd r) = orbits w /\ files (snd r) = files w.
Proof.
  intros Hits Hc. revert w. induction Hits as [|[i t] its Hi Hits IH]; intros w; cbv zeta.
  { simpl. split; [exists []; done|done]. }
  cbn [mapM]. unfold bind, ret. cbn [fst snd].
  destruct (predict_ok svid day orbit i t w Hi Hc) as ((row & Hrow & Hl) & Ho & Hf).
  destruct (predict svid day orbit i t w) as [r1 w1]. simpl in Hrow, Ho, Hf. subst r1.
  destruct (IH w1) as ((rows & Hrows & Hlen & Hall) & Ho' & Hf').
  destruct (mapM _ its w1) as [r2 w2]. simpl in *. subst r2.
  cbn [fst snd] in *. split; [|split; congruence].
  exists (row :: rows). split; [done|]. split; [simpl; lia|by constructor].
Qed.

(** For a satellite and day whose cached window map is non-empty and whose
    windows all carry coefficients, [_locate_sat_vectorised] never raises,
    whatever the dtype of [times]: it returns one row of three floats per
    query time (a NaN triple for a time outside the selected window) and
    changes neither the cache nor the persisted records. *)
Theorem locate_vectorised_present_rows day dt times svid orbit w :
  orbits w !! day ≫= lookup svid = Some orbit -> orbit <> [] ->
  Forall has_coefs orbit ->
  let r := _locate_sat_vectorised day dt times svid w in
  (exists rows, fst r = Ok (np_array rows) /\ length rows = length times /\
     Forall (fun row => length row = 3%nat) rows) /\
  orbits (snd r) = orbits w /\ files (snd r) = files w.
Proof.
  intros Hpair Hne Hc.
  assert (Hk : map fst orbit <> []) by (destruct orbit; done).
  assert (Hits : Forall (fun it => 0 <= it.1 < Z.of_nat (length orbit))%Z
                   (zip (map (nearest1 (map fst orbit)) times) times)).
  { apply Forall_forall. intros [i t] Hin. simpl.
    apply elem_of_zip_l in Hin. apply list_elem_of_fmap in Hin as (t' & -> & _).
    pose proof (nearest1_range (map fst orbit) t' Hk) as H. rewrite length_map in H. lia. }
  destruct (mapM_predict_ok svid day orbit _ w Hits Hc)
    as ((rows & Hrows & Hlen & Hall) & Ho & Hf).
  destruct (mapM _ _ w) as [r1 w1] eqn:Em. cbn [fst snd] in *. subst r1.
  assert (E : _locate_sat_vectorised day dt times svid w = (Ok (np_array rows), w1)).
  { unfold _locate_sat_vectorised, get_world, bind, lift, ret.
    rewrite Hpair, (nearest_window_idx_map _ _ Hk), Em. reflexivity. }
  cbv zeta. rewrite E. cbn [fst snd]. split; [|done].
  exists rows. split; [done|]. split; [|done].
  rewrite Hlen, length_zip, length_map. lia.
Qed.

Lemma locate_vectorised_present_rows_witness :
  let pd := mkWindow 0 2100 (mkVec4 900 0 0 0) (mkVec4 2100 1 1 1) [1%float] [2%float] [3%float] in
  let w := mkWorld {["2020042" := {["G01" := [(900%Z, pd)]]}]} ∅ [] in
  (exists rows, fst (_locate_sat_vectorised "2020042" Int64 [0; 3000]%Z "G01" w)
                  = Ok (np_array rows) /\ length rows = 2%nat /\
     Forall (fun row => length row = 3%nat) rows) /\
  fst (_locate_sat_vectorised "2020042" Int64 [0; 3000]%Z "G01" w) =
    Ok (Arr2 [[1%float; 2%float; 3%float]; [nan; nan; nan]]).
Proof.
  intros pd w. split; [|vm_compute; reflexivity].
  destruct (locate_vectorised_present_rows "2020042" Int64 [0; 3000]%Z "G01"
              [(900%Z, pd)] w eq_refl ltac:(discriminate))
    as ((rows & H1 & H2 & H3) & _ & _).
  - repeat constructor; simpl; discriminate.
  - exists rows. split; [exact H1|]. split; [exact H2|exact H3].
Defined.

(* ------------------------------------------------------------------ *)
(** ** Further properties of the batch evaluation [_locate_sat] *)

Lemma insert_str_elem x s l : x ∈ insert_str s l <-> x = s \/ x ∈ l.
Proof.
  induction l as [|s' l IH]; simpl; [set_solver|].
  destruct (String.compare s s') eqn:E.
  - apply String.compare_eq_iff in E. subst. set_solver.
  - set_solver.
  - rewrite !elem_of_cons, IH. tauto.
Qed.

Lemma np_unique_elem x l : x ∈ np_unique l <-> x ∈ l.
Proof.
  induction l as [|s l IH]; simpl; [set_solver|].
  rewrite insert_str_elem, elem_of_cons, IH. tauto.
Qed.

Lemma string_compare_refl (s : string) : String.compare s s = Eq.
Proof.
  induction s as [|a s IH]; [done|]. simpl.
  unfold Ascii.compare. by rewrite N.compare_refl.
Qed.

Lemma np_unique_repeat d n : np_unique (repeat d (S n)) = [d].
Proof.
  induction n as [|n IH]; [done|].
  change (insert_str d (np_unique (repeat d (S n))) = [d]). rewrite IH.
  simpl. by rewrite string_compare_refl.
Qed.

Lemma foldM_raises {A B} (f : A -> B -> PyM A) (a : A) (l : list B) (b : B) w :
  b ∈ l -> (forall a' w', exists e, fst (f a' b w') = Raise e) ->
  exists e, fst (foldM f a l w) = Raise e.
Proof.
  intros Hb Hf. revert a w. induction l as [|b0 l IH]; intros a w; [set_solver|].
  cbn [foldM]. unfold bind.
  destruct (f a b0 w) as [[a'|e] w'] eqn:E.
  - apply elem_of_cons in Hb as [->|Hb].
    + destruct (Hf a w) as (e & He). rewrite E in He. discriminate.
    + apply IH; done.
  - by exists e.
Qed.

Lemma select_masked_none {A} (mask : list bool) (l : list A) :
  Forall (fun b => b = false) mask -> select_masked mask l = [].
Proof.
  intros Hm. revert l. induction Hm as [|b mask -> Hm IH]; intros [|a l]; simpl; auto.
Qed.

Lemma mask_none (day svid : list string) d s :
  (d, s) ∉ zip day svid ->
  Forall (fun b => b = false)
    (zip_with (fun dd ss => bool_decide (dd = d) && bool_decide (ss = s)) day svid).
Proof.
  revert svid. induction day as [|dd day IH]; intros [|ss svid] Hn; simpl; try constructor.
  - destruct (decide (dd = d)) as [->|Hd]; [destruct (decide (ss = s)) as [->|Hs]|].
    + simpl in Hn. set_solver.
    + rewrite (bool_decide_eq_false_2 (ss = s)); [|done]. by rewrite andb_false_r.
    + by rewrite (bool_decide_eq_false_2 (dd = d)).
  - apply IH. simpl in Hn. set_solver.
Qed.

Lemma locate_vectorised_empty d dt s w :
  (exists e, fst (_locate_sat_vectorised d dt [] s w) = Raise e) \/
  fst (_locate_sat_vectorised d dt [] s w) = Ok (Arr1 []).
Proof.
  unfold _locate_sat_vectorised, get_world, bind, lift, emit, ret.
  destruct (orbits w !! d ≫= lookup s) as [orbit|]; simpl.
  - by right.
  - destruct dt; simpl; [left; eauto|by right].
Qed.

Lemma locate_group_empty day dt time svid d s out w :
  (d, s) ∉ zip day svid ->
  exists e, fst (locate_group day dt time svid d s out w) = Raise e.
Proof.
  intros Hn. pose proof (mask_none day svid d s Hn) as Hm.
  unfold locate_group. rewrite (select_masked_none _ _ Hm).
  assert (Hk : length (filter (fun b : bool => b)
             (zip_with (fun dd ss => bool_decide (dd = d) && bool_decide (ss = s)) day svid))
             = 0%nat).
  { induction Hm as [|b mask -> Hm IH]; [done|]. simpl. exact IH. }
  rewrite Hk. unfold bind at 1.
  destruct (locate_vectorised_empty d dt s w) as [(e & He)|He];
    destruct (_locate_sat_vectorised d dt [] s w) as [r w'];
    simpl in He; subst r; [by exists e|].
  unfold bind, lift. simpl. by exists ValueError.
Qed.

Lemma locate_sat_single_group d s n dt time w :
  length time = S n ->
  _locate_sat (repeat d (S n)) dt time (repeat s (S n)) w =
  (r <- _locate_sat_vectorised d dt time s;;
   vals <- lift (broadcast_rows (S n) r);;
   ret (assign_masked (repeat true (S n)) (repeat [nan; nan; nan] (S n)) vals)) w.
Proof.
  intros Hl. unfold _locate_sat. rewrite !np_unique_repeat, repeat_length.
  assert (Hmask : zip_with (fun dd ss => bool_decide (dd = d) && bool_decide (ss = s))
                    (repeat d (S n)) (repeat s (S n)) = repeat true (S n)).
  { generalize (S n). intros m. induction m as [|m IH]; [done|]. simpl.
    rewrite IH, !bool_decide_eq_true_2 by done. done. }
  assert (Hsel : select_masked (repeat true (S n)) time = time).
  { revert time Hl. generalize (S n). intros m. induction m as [|m IH]; intros [|t time] Hl;
      simpl in *; try lia; [done|]. f_equal. apply IH. lia. }
  assert (Hk : length (filter (fun b : bool => b) (repeat true (S n))) = S n).
  { generalize (S n). intros m. induction m as [|m IH]; [done|]. simpl. by rewrite IH. }
  cbn [foldM]. unfold locate_group. rewrite Hmask, Hsel, Hk.
  unfold bind, ret, lift.
  destruct (_locate_sat_vectorised d dt time s w) as [[r|e] w1]; [|done].
  destruct (broadcast_rows (S n) r); done.
Qed.

Lemma assign_masked_all (vals : list (list float)) m :
  length vals = m -> assign_masked (repeat true m) (repeat [nan; nan; nan] m) vals = vals.
Proof.
  revert m. induction vals as [|v vals IH]; intros m Hm; subst; [done|].
  simpl. f_equal. by apply IH.
Qed.

(** [_locate_sat] raises as soon as a day of its input and a satellite of
    its input never occur together in one row: the double loop then visits
    a [(day, svid)] combination whose mask selects no row, and the empty
    result (1-d, of shape [(0,)]) cannot be broadcast into the [0 x 3]
    block [output[mask, :]], whether or not the pair has an orbit. *)
Theorem locate_sat_unpaired_raises day dt time svid w d s :
  d ∈ day -> s ∈ svid -> (d, s) ∉ zip day svid ->
  exists e, fst (_locate_sat day dt time svid w) = Raise e.
Proof.
  intros Hd Hs Hn. unfold _locate_sat.
  apply (foldM_raises _ _ _ d); [by apply np_unique_elem|].
  intros out w'. apply (foldM_raises _ _ _ s); [by apply np_unique_elem|].
  intros out' w''. by apply locate_group_empty.
Qed.

Lemma locate_sat_unpaired_raises_witness :
  let pd := mkWindow 0 2100 (mkVec4 900 0 0 0) (mkVec4 2100 1 1 1) [1%float] [2%float] [3%float] in
  let m : daymodel := {["G01" := [(900%Z, pd)]; "G02" := [(900%Z, pd)]]} in
  let w := mkWorld {["2020042" := m; "2020043" := m]} ∅ [] in
  fst (_locate_sat ["2020042"; "2020043"] Float64 [0; 0]%Z ["G01"; "G02"] w)
    = Raise ValueError /\
  exists e, fst (_locate_sat ["2020042"; "2020043"] Float64 [0; 0]%Z ["G01"; "G02"] w)
              = Raise e.
Proof.
  intros pd m w. split; [vm_compute; reflexivity|].
  apply (locate_sat_unpaired_raises _ _ _ _ _ "2020042" "G02").
  - apply list_elem_of_In. simpl. auto.
  - apply list_elem_of_In. simpl. auto.
  - simpl. intros H. apply list_elem_of_In in H. simpl in H.
    destruct H as [H|[H|H]]; [discriminate|discriminate|done].
Defined.

(** When every row asks for the same day and satellite, and that pair has
    a non-empty cached window map whose windows carry coefficients,
    [_locate_sat] returns exactly the rows computed by
    [_locate_sat_vectorised] for all the times at once, one row of three
    floats per input row. *)
Theorem locate_sat_single_present d s n dt time orbit w :
  length time = S n ->
  orbits w !! d ≫= lookup s = Some orbit -> orbit <> [] -> Forall has_coefs orbit ->
  exists rows,
    fst (_locate_sat_vectorised d dt time s w) = Ok (np_array rows) /\
    _locate_sat (repeat d (S n)) dt time (repeat s (S n)) w =
      (Ok rows, snd (_locate_sat_vectorised d dt time s w)) /\
    length rows = S n /\ Forall (fun row => length row = 3%nat) rows.
Proof.
  intros Hl Hpair Hne Hc.
  destruct (locate_vectorised_present_rows d dt time s orbit w Hpair Hne Hc)
    as ((rows & Hr & Hlen & Hall) & _ & _).
  exists rows. split; [done|].
  rewrite locate_sat_single_group by done.
  unfold bind, lift, ret.
  destruct (_locate_sat_vectorised d dt time s w) as [r w1]. simpl in Hr. subst r.
  rewrite Hlen, Hl in *.
  destruct rows as [|row rows']; [simpl in Hlen; lia|].
  unfold np_array, broadcast_rows.
  assert (Hf : forallb (fun row => length row =? 3) (row :: rows') = true).
  { apply forallb_forall. intros x Hx. apply Nat.eqb_eq.
    rewrite Forall_forall in Hall. apply Hall. by apply list_elem_of_In. }
  rewrite Hf, Hlen, Nat.eqb_refl. simpl snd.
  split; [|split; [lia|done]].
  rewrite assign_masked_all; [done|]. rewrite Hlen. lia.
Qed.

Lemma locate_sat_single_present_witness :
  let pd := mkWindow 0 2100 (mkVec4 900 0 0 0) (mkVec4 2100 1 1 1) [1%float] [2%float] [3%float] in
  let w := mkWorld {["2020042" := {["G01" := [(900%Z, pd)]]}]} ∅ [] in
  fst (_locate_sat ["2020042"; "2020042"] Int64 [0; 600]%Z ["G01"; "G01"] w) =
    Ok [[1%float; 2%float; 3%float]; [1%float; 2%float; 3%float]] /\
  exists rows,
    fst (_locate_sat_vectorised "2020042" Int64 [0; 600]%Z "G01" w) = Ok (np_array rows) /\
    _locate_sat (repeat "2020042" 2) Int64 [0; 600]%Z (repeat "G01" 2) w =
      (Ok rows, snd (_locate_sat_vectorised "2020042" Int64 [0; 600]%Z "G01" w)) /\
    length rows = 2%nat /\ Forall (fun row => length row = 3%nat) rows.
Proof.
  intros pd w. split; [vm_compute; reflexivity|].
  apply (locate_sat_single_present "2020042" "G01" 1 Int64 [0; 600]%Z [(900%Z, pd)] w);
    [reflexivity|reflexivity|discriminate|].
  repeat constructor; simpl; discriminate.
Defined.

(** When every row asks for the same day and satellite and that pair has
    no cached orbit, [_locate_sat] fills NaN triples only for float times
    and a group of exactly one or three rows (the 1-d NaN array of that
    length happens to broadcast into the [k x 3] block); for any other
    group size, or for int64 times, it raises [ValueError]. *)
Theorem locate_sat_single_missing d s n dt time w :
  length time = S n -> orbits w !! d ≫= lookup s = None ->
  fst (_locate_sat (repeat d (S n)) dt time (repeat s (S n)) w) =
    match dt with
    | Float64 =>
        if bool_decide (S n = 1%nat \/ S n = 3%nat)
        then Ok (repeat [nan; nan; nan] (S n)) else Raise ValueError
    | Int64 => Raise ValueError
    end.
Proof.
  intros Hl Hmiss. rewrite locate_sat_single_group by done.
  assert (E : _locate_sat_vectorised d dt time s w =
              (ones_like_nan dt time,
               mkWorld (orbits w) (files w) (log w ++ [WarnNoOrbit s d]))).
  { unfold _locate_sat_vectorised, get_world, bind, emit, lift.
    match goal with |- context [match ?x with Some _ => _ | None => _ end] =>
      replace x with (@None (list (Z * window))) by (symmetry; exact Hmiss) end.
    done. }
  unfold bind at 1. rewrite E. unfold bind, lift, ret.
  destruct dt; [done|]. simpl. rewrite Hl.
  destruct n as [|[|[|n]]]; simpl; try done.
Qed.

Lemma locate_sat_single_missing_witness :
  fst (_locate_sat (repeat "2020042" 3) Float64 [0; 300; 600]%Z (repeat "G01" 3)
         (mkWorld ∅ ∅ [])) = Ok (repeat [nan; nan; nan] 3) /\
  fst (_locate_sat (repeat "2020042" 2) Float64 [0; 300]%Z (repeat "G01" 2)
         (mkWorld ∅ ∅ [])) = Raise ValueError.
Proof.
  split.
  - rewrite (locate_sat_single_missing "2020042" "G01" 2 Float64 [0; 300; 600]%Z
               (mkWorld ∅ ∅ []) eq_refl); [reflexivity|vm_compute; reflexivity].
  - rewrite (locate_sat_single_missing "2020042" "G01" 1 Float64 [0; 300]%Z
               (mkWorld ∅ ∅ []) eq_refl); [reflexivity|vm_compute; reflexivity].
Defined.

(* ------------------------------------------------------------------ *)
(** ** Further properties of the fitter [_create_orbit] *)

Lemma insert_by_perm {A} (le : A -> A -> bool) a l : insert_by le a l ≡ₚ a :: l.
Proof.
  induction l as [|b l IH]; simpl; [done|].
  destruct (le a b); [done|]. rewrite IH. constructor.
Qed.

Lemma sort_by_perm {A} (le : A -> A -> bool) l : sort_by le l ≡ₚ l.
Proof.
  induction l as [|a l IH]; simpl; [done|]. unfold sort_by in *. simpl.
  rewrite insert_by_perm, IH. done.
Qed.

Lemma mapR_ok {A B} (f : A -> res B) l bs :
  mapR f l = Ok bs -> length bs = length l /\ forall a, a ∈ l -> exists b, f a = Ok b.
Proof.
  revert bs. induction l as [|a l IH]; intros bs E; simpl in E.
  - injection E as <-. split; [done|set_solver].
  - destruct (f a) as [b|e] eqn:Ef; [|discriminate]. simpl in E.
    destruct (mapR f l) as [bs'|e] eqn:El; [|discriminate]. injection E as <-.
    destruct (IH bs' eq_refl) as [Hl Hall]. split; [simpl; lia|].
    intros x Hx. apply elem_of_cons in Hx as [->|Hx]; [eauto|auto].
Qed.

Lemma mapR_total {A B} (f : A -> res B) l :
  (forall a, a ∈ l -> exists b, f a = Ok b) -> exists bs, mapR f l = Ok bs.
Proof.
  induction l as [|a l IH]; intros Hall; simpl; [eauto|].
  destruct (Hall a ltac:(set_solver)) as [b ->]. simpl.
  destruct IH as [bs ->]; [intros x Hx; apply Hall; set_solver|]. simpl. eauto.
Qed.

Lemma fit_satellite_short lagrange (orbits : list sample) :
  (length orbits <= 8)%nat -> fit_satellite lagrange orbits = Raise IndexError.
Proof.
  intros Hn. unfold fit_satellite, window_centres.
  assert (Hq : ((Z.of_nat (length orbits) - 5 - 3 + 4 - 1) / 4 < 1)%Z)
    by (apply Z.div_lt_upper_bound; lia).
  unfold py_range.
  destruct (Z.to_nat ((Z.of_nat (length orbits) - 5 - 3 + 4 - 1) / 4)) eqn:E; [|lia].
  reflexivity.
Qed.

Lemma fit_satellite_long lagrange (orbits : list sample) :
  (9 <= length orbits)%nat ->
  exists ws, fit_satellite lagrange orbits = Ok ws /\ ws <> [].
Proof.
  intros Hn. unfold fit_satellite, window_centres.
  set (n := Z.of_nat (length orbits)).
  set (idxs := py_range 3 (n - 5) 4).
  assert (Hr : forall x, x ∈ idxs -> (3 <= x < n - 5)%Z)
    by (intros x Hx; apply (py_range_bounds 3 (n - 5) 4); [lia|exact Hx]).
  assert (Hne : idxs <> []) by (apply py_range_nonempty; lia).
  destruct (np_index_last idxs Hne) as [last Hl]. rewrite Hl.
  simpl. apply fit_windows_ok; [|right; destruct (last =? n - 5)%Z; [done|]].
  + apply Forall_forall. intros x Hx.
    destruct (last =? n - 5)%Z.
    * specialize (Hr x Hx). lia.
    * apply elem_of_app in Hx as [Hx|Hx].
      -- specialize (Hr x Hx). lia.
      -- apply list_elem_of_singleton in Hx. subst x. unfold n. lia.
  + destruct idxs; simpl; discriminate.
Qed.

Lemma fit_satellite_ok lagrange (orbits : list sample) ws :
  fit_satellite lagrange orbits = Ok ws -> (9 <= length orbits)%nat /\ ws <> [].
Proof.
  intros E. destruct (Nat.le_gt_cases 9 (length orbits)) as [Hn|Hn].
  - destruct (fit_satellite_long lagrange orbits Hn) as (ws' & E' & Hne).
    rewrite E in E'. injection E' as ->. done.
  - rewrite fit_satellite_short in E by lia. discriminate.
Qed.

Lemma filter_zip_with_length (id : string) (df : list sp3row) (day : list Z)
    (f : sp3row -> Z -> string * sample) :
  length day = length df -> (forall r d, (f r d).1 = r_svid r) ->
  length (filter (fun p => bool_decide (p.1 = id)) (zip_with f df day)) =
  length (filter (fun r => r_svid r = id) df).
Proof.
  intros Hl Hf. revert day Hl. induction df as [|r df IH]; intros [|d day] Hl;
    simpl in *; try lia; try done.
  rewrite !filter_cons, Hf.
  case_bool_decide; destruct (decide (r_svid r = id)); try done; simpl;
    rewrite (IH day) by lia; done.
Qed.

(** The fold of [_create_orbit] over the satellites. *)
Lemma fold_fit_ok (g : string -> res winmap) ids (acc : gmap string winmap) :
  (forall id, id ∈ ids -> exists ws, g id = Ok ws /\ ws <> []) ->
  exists m : gmap string winmap,
    fold_left (fun acc id_ => rbind acc (fun polyXYZ =>
        rbind (g id_) (fun dic =>
          Ok (match dic with [] => polyXYZ | _ => <[id_ := dic]> polyXYZ end))))
      ids (Ok acc) = Ok m /\
    dom m = dom acc ∪ (list_to_set ids : gset string).
Proof.
  revert acc. induction ids as [|id ids IH]; intros acc Hall; simpl.
  - exists acc. split; [done|set_solver].
  - destruct (Hall id ltac:(set_solver)) as (ws & Hg & Hne). rewrite Hg. simpl.
    destruct (IH (match ws with [] => acc | _ => <[id := ws]> acc end))
      as (m & Hm & Hd); [intros x Hx; apply Hall; set_solver|].
    exists m. split; [done|]. rewrite Hd.
    destruct ws as [|w ws]; [done|]. rewrite dom_insert_L. set_solver.
Qed.

Lemma fold_fit_raise (g : string -> res winmap) ids (r : res (gmap string winmap)) id e :
  id ∈ ids -> g id = Raise e ->
  exists e',
    fold_left (fun acc id_ => rbind acc (fun polyXYZ =>
        rbind (g id_) (fun dic =>
          Ok (match dic with [] => polyXYZ | _ => <[id_ := dic]> polyXYZ end))))
      ids r = Raise e'.
Proof.
  intros Hid Hg. revert r. induction ids as [|id' ids IH]; intros r; [set_solver|].
  simpl. apply elem_of_cons in Hid as [->|Hid]; [|by apply IH].
  assert (Hstay : forall l e0,
    @fold_left (res (gmap string winmap)) string (fun acc id_ => rbind acc (fun polyXYZ =>
        rbind (g id_) (fun dic =>
          Ok (match dic with [] => polyXYZ | _ => <[id_ := dic]> polyXYZ end))))
      l (Raise e0) = Raise e0).
  { induction l as [|x l IHl]; intros e0; [done|]. simpl. apply IHl. }
  destruct r as [acc|e0]; simpl; [rewrite Hg; simpl|]; eauto.
Qed.

Lemma create_orbit_unfold lagrange df day dmin :
  mapR row_day df = Ok day -> py_min day = Ok dmin ->
  let tagged := zip_with (fun r d =>
        (r_svid r,
         mkSample (r_time r + (d - dmin) * 24 * 3600 * 10 ^ 9)%Z
                  (r_x r) (r_y r) (r_z r))) df day in
  let sorted := sort_by svid_tm_le tagged in
  let g := fun id_ =>
        fit_satellite lagrange (map snd (filter (fun p => bool_decide (p.1 = id_)) sorted)) in
  _create_orbit lagrange df =
    fold_left (fun acc id_ => rbind acc (fun polyXYZ =>
        rbind (g id_) (fun dic =>
          Ok (match dic with [] => polyXYZ | _ => <[id_ := dic]> polyXYZ end))))
      (unique_in_order [] (map fst sorted)) (Ok ∅).
Proof. intros Hd Hm. cbv zeta. unfold _create_orbit. rewrite Hd. simpl. rewrite Hm. reflexivity. Qed.

Lemma map_fst_zip_with (df : list sp3row) (day : list Z) (f : sp3row -> Z -> string * sample) :
  length day = length df -> (forall r d, (f r d).1 = r_svid r) ->
  map fst (zip_with f df day) = map r_svid df.
Proof.
  intros Hl Hf. revert day Hl. induction df as [|r df IH]; intros [|d day] Hl;
    simpl in *; try lia; try done.
  rewrite Hf, (IH day) by lia. done.
Qed.

(** [_create_orbit] succeeds exactly when the frame is non-empty, every
    row's date parses, and every satellite has at least 9 rows; it then
    returns a window map for exactly the satellites of the frame (none is
    dropped and none is added). *)
Theorem create_orbit_outcome lagrange (df : list sp3row) :
  ((exists m, _create_orbit lagrange df = Ok m) <->
     (df <> [] /\ (forall r, r ∈ df -> exists d, row_day r = Ok d) /\
      forall r, r ∈ df -> (9 <= length (filter (fun r' => r_svid r' = r_svid r) df))%nat)) /\
  (forall m, _create_orbit lagrange df = Ok m ->
     dom m = (list_to_set (map r_svid df) : gset string)).
Proof.
  (* the shared facts, once [row_day] and [min] have succeeded *)
  assert (Hcore : forall day dmin, mapR row_day df = Ok day -> py_min day = Ok dmin ->
    let tagged := zip_with (fun r d =>
          (r_svid r,
           mkSample (r_time r + (d - dmin) * 24 * 3600 * 10 ^ 9)%Z
                    (r_x r) (r_y r) (r_z r))) df day in
    let sorted := sort_by svid_tm_le tagged in
    (forall id, id ∈ unique_in_order [] (map fst sorted) <-> id ∈ map r_svid df) /\
    (forall id, length (map snd (filter (fun p => bool_decide (p.1 = id)) sorted)) =
                length (filter (fun r => r_svid r = id) df))).
  { intros day dmin Hd Hm tagged sorted.
    destruct (mapR_ok _ _ _ Hd) as [Hlen _].
    split.
    - intros id. split.
      + intros Hid. apply unique_in_order_sub in Hid.
        unfold sorted in Hid. rewrite (sort_by_perm _ tagged) in Hid.
        unfold tagged in Hid. by rewrite map_fst_zip_with in Hid.
      + intros Hid. apply unique_in_order_elem; [|set_solver].
        unfold sorted. rewrite (sort_by_perm _ tagged).
        unfold tagged. by rewrite map_fst_zip_with.
    - intros id. rewrite length_map. unfold sorted. rewrite (sort_by_perm _ tagged).
      unfold tagged. by apply filter_zip_with_length. }
  assert (Hmin : forall day, mapR row_day df = Ok day -> df <> [] ->
                   exists dmin, py_min day = Ok dmin).
  { intros day Hd Hne. destruct (mapR_ok _ _ _ Hd) as [Hlen _].
    destruct day as [|d day]; [destruct df; simpl in Hlen; [done|lia]|]. simpl. eauto. }
  split; [split|].
  - intros (m & Hm).
    destruct (mapR row_day df) as [day|e] eqn:Ed;
      [|unfold _create_orbit in Hm; rewrite Ed in Hm; discriminate].
    destruct (mapR_ok _ _ _ Ed) as [Hlen Hparse].
    destruct (py_min day) as [dmin|e] eqn:Em;
      [|unfold _create_orbit in Hm; rewrite Ed in Hm; simpl in Hm; rewrite Em in Hm; discriminate].
    destruct (Hcore day dmin eq_refl Em) as [Hids Hlens].
    rewrite (create_orbit_unfold lagrange df day dmin Ed Em) in Hm. cbv zeta in Hm.
    split; [|split; [exact Hparse|]].
    + intros ->. destruct day; simpl in Hlen, Em; [discriminate|lia].
    + intros r Hr. rewrite <- Hlens.
      set (g := fun id_ => fit_satellite lagrange
              (map snd (filter (fun p => bool_decide (p.1 = id_))
                 (sort_by svid_tm_le (zip_with (fun r d =>
                    (r_svid r, mkSample (r_time r + (d - dmin) * 24 * 3600 * 10 ^ 9)%Z
                                 (r_x r) (r_y r) (r_z r))) df day))))).
      destruct (g (r_svid r)) as [ws|e] eqn:Eg.
      * apply (fit_satellite_ok lagrange _ ws Eg).
      * match type of Hm with fold_left _ ?ids _ = _ =>
          destruct (fold_fit_raise g ids (Ok ∅) (r_svid r) e) as (e' & He');
            [apply Hids; by apply list_elem_of_fmap_2|exact Eg|] end.
        unfold g in He'. cbv beta in He'. rewrite He' in Hm. discriminate.
  - intros (Hne & Hparse & Hlong).
    destruct (mapR_total row_day df Hparse) as [day Ed].
    destruct (Hmin day Ed Hne) as [dmin Em].
    destruct (Hcore day dmin Ed Em) as [Hids Hlens].
    rewrite (create_orbit_unfold lagrange df day dmin Ed Em). cbv zeta.
    edestruct fold_fit_ok as (m & Hm & _); [|exists m; exact Hm].
    intros id Hid. apply Hids in Hid. apply list_elem_of_fmap in Hid as (r & -> & Hr).
    apply fit_satellite_long. rewrite Hlens. by apply Hlong.
  - intros m Hm.
    destruct (mapR row_day df) as [day|e] eqn:Ed;
      [|unfold _create_orbit in Hm; rewrite Ed in Hm; discriminate].
    destruct (py_min day) as [dmin|e] eqn:Em;
      [|unfold _create_orbit in Hm; rewrite Ed in Hm; simpl in Hm; rewrite Em in Hm; discriminate].
    destruct (Hcore day dmin eq_refl Em) as [Hids Hlens].
    rewrite (create_orbit_unfold lagrange df day dmin Ed Em) in Hm. cbv zeta in Hm.
    edestruct fold_fit_ok as (m' & Hm' & Hdom).
    2: { rewrite Hm' in Hm. injection Hm as <-. rewrite Hdom, dom_empty_L.
         apply set_eq. intros x. rewrite elem_of_union, !elem_of_list_to_set, Hids.
         set_solver. }
    intros id Hid. apply Hids in Hid. apply list_elem_of_fmap in Hid as (r & -> & Hr).
    destruct (fit_satellite _ _) as [ws|e] eqn:Eg.
    + exists ws. split; [done|]. by apply (fit_satellite_ok lagrange _ ws Eg).
    + exfalso.
      set (g := fun id_ => fit_satellite lagrange
              (map snd (filter (fun p => bool_decide (p.1 = id_))
                 (sort_by svid_tm_le (zip_with (fun r d =>
                    (r_svid r, mkSample (r_time r + (d - dmin) * 24 * 3600 * 10 ^ 9)%Z
                                 (r_x r) (r_y r) (r_z r))) df day))))).
      match type of Hm with fold_left _ ?ids _ = _ =>
        destruct (fold_fit_raise g ids (Ok ∅) (r_svid r) e) as (e' & He');
          [apply Hids; by apply list_elem_of_fmap_2|exact Eg|] end.
      unfold g in He'. cbv beta in He'. rewrite He' in Hm. discriminate.
Qed.

Lemma create_orbit_outcome_witness :
  let df := series_rows "G01" (fun _ => 1%float) (fun _ => 2%float) (fun _ => 3%float) 9 in
  (exists m, _create_orbit scipy_lagrange df = Ok m) /\
  (forall r, r ∈ df -> (9 <= length (filter (fun r' => r_svid r' = r_svid r) df))%nat) /\
  dom (match _create_orbit scipy_lagrange df with Ok m => m | Raise _ => ∅ end) =
    (list_to_set (map r_svid df) : gset string).
Proof.
  intros df.
  assert (E : _create_orbit scipy_lagrange df =
              Ok (match _create_orbit scipy_lagrange df with Ok m => m | Raise _ => ∅ end))
    by (vm_compute; reflexivity).
  destruct (create_orbit_outcome scipy_lagrange df) as [[Hto _] Hdom].
  split; [eexists; exact E|]. split.
  - apply Hto. eexists; exact E.
  - apply Hdom. exact E.
Defined.

Lemma py_range_nth start stop step k :
  (k < length (py_range start stop step))%nat ->
  nth k (py_range start stop step) 0%Z = (start + step * Z.of_nat k)%Z.
Proof.
  intros Hk. unfold py_range in *. rewrite length_map, length_seq in Hk.
  apply nth_lookup_Some. rewrite list_lookup_fmap, lookup_seq_lt by lia. reflexivity.
Qed.

Lemma py_range_length start stop step :
  (0 < step)%Z ->
  length (py_range start stop step) = Z.to_nat ((stop - start + step - 1) / step).
Proof. intros _. unfold py_range. by rewrite length_map, length_seq. Qed.

Lemma increasing_app_last (a : list Z) x :
  increasing a -> (forall y, y ∈ a -> y < x)%Z -> increasing (a ++ [x]).
Proof.
  intros Ha Hx i j Hij. rewrite length_app in Hij. simpl in Hij.
  destruct (Nat.lt_ge_cases j (length a)) as [Hj|Hj].
  - rewrite !app_nth1 by lia. apply Ha. lia.
  - replace j with (length a) by lia. rewrite app_nth1 by lia.
    rewrite app_nth2, Nat.sub_diag by lia. simpl.
    apply Hx. apply list_elem_of_In, nth_In. lia.
Qed.

(** The centre indices for [n >= 9] samples: strictly increasing, within
    [[3, n - 5]], ending at [n - 5], and every sample index [j < n - 1] is
    at most three away from a centre. *)
Lemma window_centres_spec (n : Z) :
  (9 <= n)%Z ->
  exists idxs, window_centres n = Ok idxs /\ increasing idxs /\
    (forall c, c ∈ idxs -> 3 <= c <= n - 5)%Z /\ (n - 5)%Z ∈ idxs /\
    (forall j, 0 <= j < n - 1 -> exists c, c ∈ idxs /\ c - 3 <= j <= c + 3)%Z.
Proof.
  intros Hn. unfold window_centres.
  set (idxs := py_range 3 (n - 5) 4).
  set (K := Z.to_nat ((n - 5 - 3 + 4 - 1) / 4)).
  assert (HK : length idxs = K) by (apply py_range_length; lia).
  assert (HK1 : (1 <= (n - 5 - 3 + 4 - 1) / 4)%Z) by (apply Z.div_le_lower_bound; lia).
  assert (HK2 : (4 * ((n - 5 - 3 + 4 - 1) / 4) <= n - 5)%Z)
    by (pose proof (Z.mul_div_le (n - 5 - 3 + 4 - 1) 4 ltac:(lia)); lia).
  assert (HK3 : (n - 5 - 3 + 4 - 1 < 4 * ((n - 5 - 3 + 4 - 1) / 4) + 4)%Z)
    by (pose proof (Z.mod_pos_bound (n - 5 - 3 + 4 - 1) 4 ltac:(lia));
        pose proof (Z.div_mod (n - 5 - 3 + 4 - 1) 4 ltac:(lia)); lia).
  assert (Hnth : forall k, (k < K)%nat -> nth k idxs 0%Z = (3 + 4 * Z.of_nat k)%Z)
    by (intros k Hk; apply py_range_nth; change (py_range 3 (n - 5) 4) with idxs; lia).
  assert (Hinc : increasing idxs).
  { intros i j Hij. rewrite !Hnth by lia. lia. }
  assert (Hr : forall x, x ∈ idxs -> (3 <= x < n - 5)%Z)
    by (intros x Hx; apply (py_range_bounds 3 (n - 5) 4); [lia|exact Hx]).
  assert (Hne : idxs <> []) by (apply py_range_nonempty; lia).
  assert (Hlast : np_index idxs (-1) = Ok (nth (K - 1) idxs 0%Z)).
  { unfold np_index. cbv zeta. rewrite HK.
    replace (if (-1 <? 0)%Z then (Z.of_nat K + -1)%Z else (-1)%Z) with (Z.of_nat (K - 1))
      by (cbn [Z.ltb Z.compare]; lia).
    replace ((0 <=? Z.of_nat (K - 1)) && (Z.of_nat (K - 1) <? Z.of_nat K))%Z with true
      by (symmetry; apply andb_true_iff; split; [apply Z.leb_le|apply Z.ltb_lt]; lia).
    rewrite Nat2Z.id.
    destruct (idxs !! (K - 1)%nat) eqn:E.
    - f_equal. symmetry. apply nth_lookup_Some. exact E.
    - apply lookup_ge_None in E. lia. }
  rewrite Hlast. simpl.
  (* the last element of [idxs] is below [n - 5], so the tail centre is appended *)
  assert (Hl : (nth (K - 1) idxs 0 < n - 5)%Z).
  { apply Hr, list_elem_of_In, nth_In. lia. }
  replace (nth (K - 1) idxs 0 =? n - 5)%Z with false by (symmetry; apply Z.eqb_neq; lia).
  eexists. split; [reflexivity|]. split; [|split; [|split]].
  - apply increasing_app_last; [done|]. intros y Hy. specialize (Hr y Hy). lia.
  - intros c Hc. apply elem_of_app in Hc as [Hc|Hc].
    + specialize (Hr c Hc). lia.
    + apply list_elem_of_singleton in Hc. lia.
  - apply elem_of_app. right. set_solver.
  - intros j Hj.
    destruct (Z.lt_ge_cases j (4 * Z.of_nat K)) as [Hjk|Hjk].
    + exists (3 + 4 * (j / 4))%Z. split.
      * apply elem_of_app. left.
        assert (j / 4 < Z.of_nat K)%Z by (apply Z.div_lt_upper_bound; lia).
        assert (0 <= j / 4)%Z by (apply Z.div_pos; lia).
        replace (3 + 4 * (j / 4))%Z with (nth (Z.to_nat (j / 4)) idxs 0%Z)
          by (rewrite Hnth by lia; rewrite Z2Nat.id by lia; reflexivity).
        apply list_elem_of_In, nth_In. lia.
      * pose proof (Z.mod_pos_bound j 4 ltac:(lia)).
        pose proof (Z.div_mod j 4 ltac:(lia)). lia.
    + exists (n - 5)%Z. split; [apply elem_of_app; right; set_solver|]. lia.
Qed.

Lemma dict_set_in {V} k (v : V) l : (k, v) ∈ dict_set k v l.
Proof.
  induction l as [|[k' v'] l IH]; simpl; [set_solver|].
  destruct (k =? k')%Z; set_solver.
Qed.

Lemma dict_set_keep {V} k (v : V) l kv : kv ∈ l -> kv.1 <> k -> kv ∈ dict_set k v l.
Proof.
  induction l as [|[k' v'] l IH]; simpl; intros Hin Hne; [set_solver|].
  apply elem_of_cons in Hin as [->|Hin].
  - simpl in Hne. replace (k =? k')%Z with false by (symmetry; apply Z.eqb_neq; congruence).
    set_solver.
  - destruct (k =? k')%Z; apply elem_of_cons; right; [done|]. by apply IH.
Qed.

Lemma dict_set_from {V} k (v : V) l kv : kv ∈ dict_set k v l -> kv = (k, v) \/ kv ∈ l.
Proof.
  induction l as [|[k' v'] l IH]; simpl; intros Hin; [set_solver|].
  destruct (k =? k')%Z; apply elem_of_cons in Hin as [->|Hin]; [by left|set_solver|set_solver|].
  destruct (IH Hin); set_solver.
Qed.

Lemma dict_set_fresh {V} k (v : V) l :
  (forall kv, kv ∈ l -> (kv.1 < k)%Z) -> dict_set k v l = l ++ [(k, v)].
Proof.
  induction l as [|[k' v'] l IH]; simpl; intros Hl; [done|].
  assert (k' < k)%Z by (apply (Hl (k', v')); set_solver).
  replace (k =? k')%Z with false by (symmetry; apply Z.eqb_neq; lia).
  rewrite IH; [done|]. intros kv Hkv. apply Hl. set_solver.
Qed.

Lemma increasing_cons (i : Z) l :
  increasing (i :: l) -> increasing l /\ (forall c, c ∈ l -> (i < c)%Z).
Proof.
  intros H. split.
  - intros a b Hab. apply (H (S a) (S b)). simpl. lia.
  - intros c Hc. apply list_elem_of_In, In_nth with (d := 0%Z) in Hc as (k & Hk & <-).
    apply (H 0%nat (S k)). simpl. lia.
Qed.

Lemma tm_lt (orbits : list sample) a b :
  increasing (map s_tm orbits) -> (a < b < length orbits)%nat ->
  (s_tm (nth a orbits sample0) < s_tm (nth b orbits sample0))%Z.
Proof.
  intros H Hab. rewrite <- !(map_nth s_tm orbits sample0).
  apply H. rewrite length_map. lia.
Qed.

Lemma tm_le (orbits : list sample) a b :
  increasing (map s_tm orbits) -> (a <= b < length orbits)%nat ->
  (s_tm (nth a orbits sample0) <= s_tm (nth b orbits sample0))%Z.
Proof.
  intros H Hab. destruct (Nat.eq_dec a b) as [->|]; [lia|].
  apply Z.lt_le_incl, tm_lt; [done|lia].
Qed.

(** What [fit_windows] leaves in the dict: entries of [acc] whose key no
    centre produces, one window per centre keyed by the centre's time and
    bounded by the times of the samples [c - 3] and [c + 4], and nothing
    else. *)
Lemma fit_windows_entries lagrange idxs orbits acc ws :
  increasing (map s_tm orbits) -> increasing idxs ->
  Forall (fun i => 3 <= i <= Z.of_nat (length orbits) - 5)%Z idxs ->
  fit_windows lagrange idxs orbits acc = Ok ws ->
  (forall kv, kv ∈ acc ->
     (forall c, c ∈ idxs -> kv.1 <> s_tm (nth (Z.to_nat c) orbits sample0)) -> kv ∈ ws) /\
  (forall c, c ∈ idxs -> exists pd, (s_tm (nth (Z.to_nat c) orbits sample0), pd) ∈ ws /\
     lb pd = s_tm (nth (Z.to_nat c - 3) orbits sample0) /\
     ub pd = s_tm (nth (Z.to_nat c + 4) orbits sample0)) /\
  (forall kv, kv ∈ ws -> kv ∈ acc \/ exists c, c ∈ idxs /\
     kv.1 = s_tm (nth (Z.to_nat c) orbits sample0) /\
     lb kv.2 = s_tm (nth (Z.to_nat c - 3) orbits sample0) /\
     ub kv.2 = s_tm (nth (Z.to_nat c + 4) orbits sample0)).
Proof.
  intros Horb. revert acc ws.
  induction idxs as [|i idxs IH]; intros acc ws Hinc Hall Hfit.
  - cbn [fit_windows] in Hfit. injection Hfit as <-.
    split; [done|]. split; [intros c Hc; set_solver|]. by left.
  - apply Forall_cons in Hall as [Hi Hall].
    apply increasing_cons in Hinc as [Hinc Hlt].
    cbn [fit_windows] in Hfit.
    destruct (poly_lagrange_ok lagrange i orbits Hi) as (pd & Hpl & Hlb & Hub).
    rewrite Hpl in Hfit. cbn [rbind fst snd] in Hfit.
    destruct (IH _ _ Hinc Hall Hfit) as (H1 & H2 & H3).
    assert (Hfresh : forall c, c ∈ idxs ->
              s_tm (nth (Z.to_nat i) orbits sample0) <> s_tm (nth (Z.to_nat c) orbits sample0)).
    { intros c Hc. apply Z.lt_neq, tm_lt; [done|].
      specialize (Hlt c Hc). rewrite Forall_forall in Hall. specialize (Hall c Hc). lia. }
    split; [|split].
    + intros kv Hkv Hnot. apply H1.
      * apply dict_set_keep; [done|]. apply Hnot. set_solver.
      * intros c Hc. apply Hnot. set_solver.
    + intros c Hc. apply elem_of_cons in Hc as [->|Hc].
      * exists pd. split; [|done]. apply H1; [apply dict_set_in|]. exact Hfresh.
      * by apply H2.
    + intros kv Hkv. destruct (H3 kv Hkv) as [Hd|(c & Hc & Hk)].
      * apply dict_set_from in Hd as [->|Hd]; [|by left].
        right. exists i. split; [set_solver|]. done.
      * right. exists c. split; [set_solver|done].
Qed.

(** Starting from keys below every centre's time, the keys [fit_windows]
    produces stay strictly increasing. *)
Lemma fit_windows_keys_increasing lagrange idxs orbits acc ws :
  increasing (map s_tm orbits) -> increasing idxs ->
  Forall (fun i => 3 <= i <= Z.of_nat (length orbits) - 5)%Z idxs ->
  increasing (map fst acc) ->
  (forall kv c, kv ∈ acc -> c ∈ idxs -> (kv.1 < s_tm (nth (Z.to_nat c) orbits sample0))%Z) ->
  fit_windows lagrange idxs orbits acc = Ok ws ->
  increasing (map fst ws).
Proof.
  intros Horb. revert acc ws.
  induction idxs as [|i idxs IH]; intros acc ws Hinc Hall Hacc Hbelow Hfit.
  - cbn [fit_windows] in Hfit. by injection Hfit as <-.
  - apply Forall_cons in Hall as [Hi Hall].
    apply increasing_cons in Hinc as [Hinc Hlt].
    cbn [fit_windows] in Hfit.
    destruct (poly_lagrange_ok lagrange i orbits Hi) as (pd & Hpl & _).
    rewrite Hpl in Hfit. cbn [rbind fst snd] in Hfit.
    rewrite dict_set_fresh in Hfit by (intros kv Hkv; apply Hbelow; set_solver).
    apply (IH (acc ++ [(s_tm (nth (Z.to_nat i) orbits sample0), pd)]) ws Hinc Hall);
      [| |exact Hfit].
    + rewrite map_app. apply increasing_app_last; [done|].
      intros y Hy. apply list_elem_of_fmap in Hy as (kv & -> & Hkv).
      apply Hbelow; set_solver.
    + intros kv c Hkv Hc. apply elem_of_app in Hkv as [Hkv|Hkv].
      * apply Hbelow; set_solver.
      * apply list_elem_of_singleton in Hkv as ->. simpl. apply tm_lt; [done|].
        specialize (Hlt c Hc). rewrite Forall_forall in Hall. specialize (Hall c Hc). lia.
Qed.

Lemma last_at_or_below (f : nat -> Z) (m : nat) (t : Z) :
  (f 0%nat <= t)%Z ->
  exists j, (j <= m)%nat /\ (f j <= t)%Z /\ (j = m \/ (t < f (S j))%Z).
Proof.
  intros H0. induction m as [|m IH].
  - exists 0%nat. lia.
  - destruct IH as (j & Hj & Hfj & [->|Hlt]).
    + destruct (Z_le_gt_dec (f (S m)) t).
      * exists (S m). lia.
      * exists m. lia.
    + exists j. lia.
Qed.

(** [fit_satellite] on a series of at least 9 samples with strictly
    increasing times succeeds; its midpoint keys are strictly increasing;
    every window lies within the series' time span with its key strictly
    between its bounds; and every time of the span lies in some window. *)
Theorem fit_satellite_covers lagrange (orbits : list sample) :
  (9 <= length orbits)%nat -> increasing (map s_tm orbits) ->
  exists ws, fit_satellite lagrange orbits = Ok ws /\
    increasing (map fst ws) /\
    (forall k pd, (k, pd) ∈ ws ->
       (s_tm (nth 0 orbits sample0) <= lb pd < k /\ k < ub pd <=
        s_tm (nth (length orbits - 1) orbits sample0))%Z) /\
    (forall t, (s_tm (nth 0 orbits sample0) <= t <=
                s_tm (nth (length orbits - 1) orbits sample0))%Z ->
       exists k pd, (k, pd) ∈ ws /\ (lb pd <= t <= ub pd)%Z).
Proof.
  intros Hn Horb. set (n := length orbits) in *.
  destruct (window_centres_spec (Z.of_nat n) ltac:(lia))
    as (idxs & Hwc & Hinc & Hrange & Hlast & Hcover).
  assert (Hall : Forall (fun i => 3 <= i <= Z.of_nat (length orbits) - 5)%Z idxs)
    by (apply Forall_forall; exact Hrange).
  destruct (fit_windows_ok lagrange idxs orbits [] Hall) as (ws & Hfit & _).
  { right. intros ->. set_solver. }
  exists ws. unfold fit_satellite. fold n. rewrite Hwc. cbn [rbind].
  split; [exact Hfit|].
  destruct (fit_windows_entries lagrange idxs orbits [] ws Horb Hinc Hall Hfit)
    as (_ & Hin & Hfrom).
  split; [|split].
  - apply (fit_windows_keys_increasing lagrange idxs orbits [] ws Horb Hinc Hall);
      [intros i j Hij; simpl in Hij; lia|set_solver|exact Hfit].
  - intros k pd Hkp. destruct (Hfrom _ Hkp) as [Hnil|(c & Hc & Hk & Hl & Hu)]; [set_solver|].
    simpl in Hk, Hl, Hu. specialize (Hrange c Hc).
    rewrite Hk, Hl, Hu.
    repeat split; [apply tm_le| apply tm_lt| apply tm_lt| apply tm_le]; done || lia.
  - intros t Ht.
    destruct (last_at_or_below (fun j => s_tm (nth j orbits sample0)) (n - 1) t)
      as (j & Hj & Hjt & Hnext); [lia|].
    destruct (Nat.eq_dec j (n - 1)) as [->|Hjn].
    + destruct (Hin _ Hlast) as (pd & Hpd & Hl & Hu).
      eexists _, pd. split; [exact Hpd|]. rewrite Hl, Hu. split.
      * transitivity (s_tm (nth (n - 1) orbits sample0)); [apply tm_le; done || lia|lia].
      * replace (Z.to_nat (Z.of_nat n - 5) + 4)%nat with (n - 1)%nat by lia. lia.
    + destruct Hnext as [|Hnext]; [lia|].
      destruct (Hcover (Z.of_nat j) ltac:(lia)) as (c & Hc & Hcj).
      specialize (Hrange c Hc).
      destruct (Hin c Hc) as (pd & Hpd & Hl & Hu).
      eexists _, pd. split; [exact Hpd|]. rewrite Hl, Hu. split.
      * transitivity (s_tm (nth j orbits sample0)); [apply tm_le; done || lia|lia].
      * transitivity (s_tm (nth (S j) orbits sample0)); [lia|apply tm_le; done || lia].
Qed.

Lemma fit_satellite_covers_witness :
  let orbits := map (fun k => mkSample (300 * Z.of_nat k) 1 2 3) (seq 0 12) in
  (9 <= length orbits)%nat /\ increasing (map s_tm orbits) /\
  exists ws, fit_satellite scipy_lagrange orbits = Ok ws /\
    increasing (map fst ws) /\
    (forall t, (0 <= t <= 3300)%Z -> exists k pd, (k, pd) ∈ ws /\ (lb pd <= t <= ub pd)%Z).
Proof.
  intros orbits.
  assert (Hlen : (9 <= length orbits)%nat) by (vm_compute; lia).
  assert (Hinc : increasing (map s_tm orbits)) by (apply increasingb_sound; vm_compute; reflexivity).
  split; [exact Hlen|]. split; [exact Hinc|].
  destruct (fit_satellite_covers scipy_lagrange orbits Hlen Hinc)
    as (ws & Hws & Hkeys & _ & Hcov).
  exists ws. split; [exact Hws|]. split; [exact Hkeys|].
  intros t Ht. apply Hcov. vm_compute. vm_compute in Ht. exact Ht.
Defined.

(* ------------------------------------------------------------------ *)
(** ** The orbit store's file names *)

Lemma mapR_elem {A B} (f : A -> res B) l bs :
  mapR f l = Ok bs -> forall b, b ∈ bs <-> exists a, a ∈ l /\ f a = Ok b.
Proof.
  revert bs. induction l as [|a l IH]; intros bs E b; simpl in E.
  - injection E as <-. set_solver.
  - destruct (f a) as [b0|e] eqn:Ef; [|discriminate]. simpl in E.
    destruct (mapR f l) as [bs'|e] eqn:El; [|discriminate]. injection E as <-.
    rewrite elem_of_cons, (IH bs' eq_refl). split.
    + intros [->|(a' & Ha' & Hf)]; [exists a; split; [set_solver|done]|].
      exists a'. split; [set_solver|done].
    + intros (a' & Ha' & Hf). apply elem_of_cons in Ha' as [->|Ha'].
      * left. congruence.
      * right. eauto.
Qed.

#[local] Arguments String.append : simpl nomatch.

Lemma string_append_empty_r (s : string) : String.append s EmptyString = s.
Proof. induction s as [|c s IH]; simpl; [done|by rewrite IH]. Qed.

Lemma string_append_assoc (a b c : string) :
  String.append (String.append a b) c = String.append a (String.append b c).
Proof. induction a as [|x a IH]; simpl; [done|by rewrite IH]. Qed.

Lemma string_prefix_append (p s : string) : String.prefix p (String.append p s) = true.
Proof.
  induction p as [|a p IH]; [by destruct s|].
  simpl. destruct (ascii_dec a a); [exact IH|done].
Qed.

Lemma prefix_append (p s : string) : String.prefix p (String.append p s) = true.
Proof.
  induction p as [|a p IH]; simpl.
  - destruct s; reflexivity.
  - destruct (ascii_dec a a); [exact IH|done].
Qed.

Lemma re_split_aux_app (d rest cur : string) :
  forallb (fun c => negb (is_re_split_sep c)) (String.list_ascii_of_string d) = true ->
  re_split_aux (String.append d rest) cur = re_split_aux rest (String.append cur d).
Proof.
  revert cur. induction d as [|c d IH]; intros cur Hd.
  - by rewrite string_append_empty_r.
  - simpl in Hd. apply andb_true_iff in Hd as [Hc Hd].
    apply negb_true_iff in Hc. simpl. rewrite Hc, IH by done.
    by rewrite string_append_assoc.
Qed.

Lemma re_split_get_filename (d : string) :
  forallb (fun c => negb (is_re_split_sep c)) (String.list_ascii_of_string d) = true ->
  re_split (_get_filename d) = ["orbits"; d; "json"].
Proof.
  intros Hd. unfold re_split, _get_filename. simpl.
  rewrite re_split_aux_app by done. reflexivity.
Qed.

(** The days [metadata] lists are exactly those of the [orbits_<day>.json]
    files ([_get_filename]) in the package, whatever else the package
    holds, provided no day contains [_] or [.]: a file written by
    [_save_orbit(day, ...)] is seen again as [day]. *)
Theorem metadata_of_contents_days (ds contents : list string) :
  Forall (fun d => forallb (fun c => negb (is_re_split_sep c)) (String.list_ascii_of_string d) = true) ds ->
  (forall f, f ∈ contents ->
     (exists d, d ∈ ds /\ f = _get_filename d) \/ String.prefix "orbits_" f = false) ->
  (forall d, d ∈ ds -> _get_filename d ∈ contents) ->
  metadata_of_contents contents = Ok (list_to_set ds).
Proof.
  intros Hsep Hcont Hall. rewrite Forall_forall in Hsep.
  unfold metadata_of_contents.
  set (fs := filter (fun f => String.prefix "orbits_" f = true) contents).
  assert (Hfs : forall f, f ∈ fs -> exists d, d ∈ ds /\ f = _get_filename d).
  { intros f Hf. apply list_elem_of_filter in Hf as [Hp Hf].
    destruct (Hcont f Hf) as [?|Hn]; [done|congruence]. }
  assert (Hget : forall d, d ∈ ds -> np_index (re_split (_get_filename d)) 1 = Ok d).
  { intros d Hd. rewrite re_split_get_filename by (apply Hsep; done). reflexivity. }
  destruct (mapR_total (fun f => np_index (re_split f) 1) fs) as [bs Hbs].
  { intros f Hf. destruct (Hfs f Hf) as (d & Hd & ->). eauto. }
  rewrite Hbs. cbn [rbind]. f_equal.
  apply leibniz_equiv, set_equiv. intros x.
  rewrite !elem_of_list_to_set, (mapR_elem _ _ _ Hbs). split.
  - intros (f & Hf & Hx). destruct (Hfs f Hf) as (d & Hd & ->).
    rewrite Hget in Hx by done. by injection Hx as ->.
  - intros Hx. exists (_get_filename x). split; [|by apply Hget].
    apply list_elem_of_filter. split; [apply string_prefix_append|by apply Hall].
Qed.

Lemma metadata_of_contents_days_witness :
  metadata_of_contents ["orbits_2020042.json"; "__init__.py"; "orbits_2020043.json"] =
    Ok (list_to_set ["2020042"; "2020043"]).
Proof.
  apply metadata_of_contents_days.
  - repeat constructor.
  - intros f Hf. repeat (apply elem_of_cons in Hf as [->|Hf]).
    + left. exists "2020042". split; [set_solver|reflexivity].
    + right. reflexivity.
    + left. exists "2020043". split; [set_solver|reflexivity].
    + apply elem_of_nil in Hf. done.
  - intros d Hd. repeat (apply elem_of_cons in Hd as [->|Hd]).
    + set_solver.
    + set_solver.
    + apply elem_of_nil in Hd. done.
Defined.

(* ------------------------------------------------------------------ *)
(** ** NaN propagation through the fitter and the evaluator *)

Lemma nan_mul_l x y : Prim2SF x = S754_nan -> Prim2SF (x * y)%float = S754_nan.
Proof. intros H. rewrite FloatAxioms.mul_spec, H. reflexivity. Qed.

Lemma nan_mul_r x y : Prim2SF y = S754_nan -> Prim2SF (x * y)%float = S754_nan.
Proof. intros H. rewrite FloatAxioms.mul_spec, H. destruct (Prim2SF x); reflexivity. Qed.

Lemma nan_add_l x y : Prim2SF x = S754_nan -> Prim2SF (x + y)%float = S754_nan.
Proof. intros H. rewrite FloatAxioms.add_spec, H. reflexivity. Qed.

Lemma nan_add_r x y : Prim2SF y = S754_nan -> Prim2SF (x + y)%float = S754_nan.
Proof. intros H. rewrite FloatAxioms.add_spec, H. destruct (Prim2SF x); reflexivity. Qed.

Lemma nan_eqb x y : Prim2SF x = S754_nan -> (x =? y)%float = false.
Proof. intros H. rewrite FloatAxioms.eqb_spec, H. reflexivity. Qed.

Lemma nan_is_nan x : Prim2SF x = S754_nan -> PrimFloat.is_nan x = true.
Proof. intros H. unfold PrimFloat.is_nan. by rewrite nan_eqb. Qed.

(** [a - a] is a zero, or NaN when [a] is infinite or NaN. *)
Lemma sub_self_zero_or_nan a :
  (exists s, Prim2SF (a - a)%float = S754_zero s) \/ Prim2SF (a - a)%float = S754_nan.
Proof.
  rewrite FloatAxioms.sub_spec. unfold SF64sub.
  destruct (Prim2SF a) as [s|s| |s m e]; simpl.
  - left. destruct s; eauto.
  - right. destruct s; reflexivity.
  - right. reflexivity.
  - left. exists false.
    assert (Hz : forall z, IntDef.Z.sub z z = 0%Z) by (intros z; apply Z.sub_diag).
    rewrite Hz. reflexivity.
Qed.

(** A zero or NaN divided by a zero or NaN is NaN. *)
Lemma div_zero_or_nan u v :
  ((exists s, Prim2SF u = S754_zero s) \/ Prim2SF u = S754_nan) ->
  ((exists s, Prim2SF v = S754_zero s) \/ Prim2SF v = S754_nan) ->
  Prim2SF (u / v)%float = S754_nan.
Proof.
  intros [[su Hu]|Hu] [[sv Hv]|Hv]; rewrite FloatAxioms.div_spec, Hu; try rewrite Hv; reflexivity.
Qed.

Lemma last_is_nan_cons a l : l <> [] -> last_is_nan l -> last_is_nan (a :: l).
Proof. intros Hne (c & Hc & Hn). exists c. split; [|done]. destruct l; [done|exact Hc]. Qed.

Lemma last_is_nan_cons_inv a l : l <> [] -> last_is_nan (a :: l) -> last_is_nan l.
Proof. intros Hne (c & Hc & Hn). exists c. split; [|done]. destruct l; [done|exact Hc]. Qed.

Lemma last_is_nan_app l1 l2 : last_is_nan l2 -> last_is_nan (l1 ++ l2).
Proof.
  intros H. induction l1 as [|a l1 IH]; [done|]. simpl.
  apply last_is_nan_cons; [|done].
  destruct H as (c & Hc & _). intros E. apply app_eq_nil in E as [_ ->]. done.
Qed.

Lemma last_is_nan_nonempty l : last_is_nan l -> l <> [].
Proof. intros (c & Hc & _) ->. done. Qed.

Lemma trim_leading_last l : last_is_nan l -> last_is_nan (trim_leading l).
Proof.
  induction l as [|a l IH]; intros H; [done|]. simpl.
  destruct l as [|b l].
  - destruct H as (c & Hc & Hn). injection Hc as ->. rewrite nan_eqb by done.
    exists c. done.
  - destruct (a =? 0)%float; [|done].
    apply IH. by apply (last_is_nan_cons_inv a).
Qed.

Lemma poly1d_last l : last_is_nan l -> last_is_nan (poly1d l).
Proof.
  intros H. unfold poly1d. apply trim_leading_last in H.
  destruct (trim_leading l); [by apply last_is_nan_nonempty in H|done].
Qed.

Lemma poly1d_nonempty l : poly1d l <> [].
Proof. unfold poly1d. destruct (trim_leading l); discriminate. Qed.

Lemma convolve_length a b :
  a <> [] -> b <> [] -> length (convolve a b) = (length a + length b - 1)%nat.
Proof.
  intros Ha Hb. induction a as [|x a IH]; [done|].
  destruct a as [|y a].
  - simpl. rewrite length_map. lia.
  - change (convolve (x :: y :: a) b) with
      (zip_with PrimFloat.add (map (PrimFloat.mul x) b ++ repeat 0%float (length (y :: a)))
                              (0%float :: convolve (y :: a) b)).
    rewrite length_zip_with, length_app, length_map, repeat_length. cbn [length].
    rewrite IH by discriminate. cbn [length]. destruct b; [done|]. cbn [length]. lia.
Qed.

Lemma last_zip_with_add_r l1 l2 :
  length l1 = length l2 -> last_is_nan l2 -> last_is_nan (zip_with PrimFloat.add l1 l2).
Proof.
  revert l2. induction l1 as [|a l1 IH]; intros l2 Hl H.
  - destruct l2; [by apply last_is_nan_nonempty in H|done].
  - destruct l2 as [|b l2]; [done|]. simpl in Hl. simpl.
    destruct l2 as [|b' l2].
    + destruct l1; [|done]. destruct H as (c & Hc & Hn). injection Hc as ->.
      eexists. split; [reflexivity|]. by apply nan_add_r.
    + apply last_is_nan_cons.
      * destruct l1; [done|discriminate].
      * apply IH; [lia|]. by apply (last_is_nan_cons_inv b).
Qed.

Lemma last_zip_with_add_l l1 l2 :
  length l1 = length l2 -> last_is_nan l1 -> last_is_nan (zip_with PrimFloat.add l1 l2).
Proof.
  revert l2. induction l1 as [|a l1 IH]; intros l2 Hl H.
  - by apply last_is_nan_nonempty in H.
  - destruct l2 as [|b l2]; [done|]. simpl in Hl. simpl.
    destruct l1 as [|a' l1].
    + destruct l2; [|done]. destruct H as (c & Hc & Hn). injection Hc as ->.
      eexists. split; [reflexivity|]. by apply nan_add_l.
    + apply last_is_nan_cons.
      * destruct l2; [done|discriminate].
      * apply IH; [lia|]. by apply (last_is_nan_cons_inv a).
Qed.

Lemma convolve_last a b : last_is_nan a -> b <> [] -> last_is_nan (convolve a b).
Proof.
  intros Ha Hb. induction a as [|x a IH]; [by apply last_is_nan_nonempty in Ha|].
  destruct a as [|y a].
  - destruct Ha as (c & Hc & Hn). injection Hc as ->. simpl.
    destruct b as [|z b] using rev_ind; [done|].
    exists (c * z)%float. rewrite map_app. simpl. split.
    + apply last_snoc.
    + by apply nan_mul_l.
  - change (convolve (x :: y :: a) b) with
      (zip_with PrimFloat.add (map (PrimFloat.mul x) b ++ repeat 0%float (length (y :: a)))
                              (0%float :: convolve (y :: a) b)).
    apply last_zip_with_add_r.
    + rewrite length_app, length_map, repeat_length. cbn [length].
      rewrite convolve_length by (done || discriminate). cbn [length]. destruct b; [done|].
      cbn [length]. lia.
    + apply last_is_nan_cons.
      * intros E. apply (f_equal length) in E. rewrite convolve_length in E by (done || discriminate).
        simpl in E. destruct b; [done|]. simpl in E. lia.
      * apply IH. by apply (last_is_nan_cons_inv x).
Qed.

Lemma polymul_last a b : last_is_nan a -> b <> [] -> last_is_nan (polymul a b).
Proof. intros Ha Hb. apply poly1d_last, convolve_last; done. Qed.

Lemma polyadd_last a b :
  last_is_nan a \/ last_is_nan b -> last_is_nan (polyadd a b).
Proof.
  intros H. unfold polyadd. apply poly1d_last.
  assert (Hl : length (repeat 0%float (length b - length a) ++ a) =
               length (repeat 0%float (length a - length b) ++ b))
    by (rewrite !length_app, !repeat_length; lia).
  destruct H as [H|H].
  - apply last_zip_with_add_l; [done|]. by apply last_is_nan_app.
  - apply last_zip_with_add_r; [done|]. by apply last_is_nan_app.
Qed.

Lemma polyadd_nonempty a b : polyadd a b <> [].
Proof. apply poly1d_nonempty. Qed.

(** The inner loop of [lagrange]: the term of point [j]. *)
Lemma lagrange_term_last (x : list float) (j : nat) ks pt :
  last_is_nan pt ->
  last_is_nan (fold_left (fun pt k =>
            if (k =? j)%nat then pt
            else
              let fac := (nth j x 0 - nth k x 0)%float in
              polymul pt (poly1d (map (fun c => c / fac)%float
                                      (poly1d [1%float; (- nth k x 0)%float]))))
          ks pt).
Proof.
  revert pt. induction ks as [|k ks IH]; intros pt H; [done|]. simpl.
  apply IH. destruct (k =? j)%nat; [done|].
  apply polymul_last; [done|apply poly1d_nonempty].
Qed.

Lemma fold_polyadd_last {A} (f : A -> list float) l p :
  last_is_nan p -> last_is_nan (fold_left (fun p j => polyadd p (f j)) l p).
Proof.
  revert p. induction l as [|j l IH]; intros p H; [done|]. simpl.
  apply IH. apply polyadd_last. by left.
Qed.

(** When the value at point [3] is NaN, the constant term of SciPy's
    interpolating polynomial is NaN, whatever the other values. *)
Lemma scipy_lagrange_last (x w : list float) :
  (3 < length x)%nat -> Prim2SF (nth 3 w 0%float) = S754_nan ->
  last_is_nan (scipy_lagrange x w).
Proof.
  intros Hx Hw. unfold scipy_lagrange.
  replace (seq 0 (length x)) with (seq 0 3 ++ 3%nat :: seq 4 (length x - 4)).
  2:{ destruct (length x) as [|[|[|[|n]]]]; [lia..|].
      simpl. rewrite Nat.sub_0_r. reflexivity. }
  rewrite fold_left_app. cbn [fold_left].
  set (p3 := polyadd _ _).
  assert (H3 : last_is_nan p3).
  { apply polyadd_last. right. apply lagrange_term_last.
    unfold poly1d. simpl. rewrite nan_eqb by done. exists (nth 3 w 0%float). done. }
  clearbody p3. by apply fold_polyadd_last.
Qed.

Lemma fold_polyadd_nonempty {A} (f : A -> list float) l p :
  p <> [] -> fold_left (fun p j => polyadd p (f j)) l p <> [].
Proof.
  revert p. induction l as [|j l IH]; intros p H; [done|]. simpl.
  apply IH, polyadd_nonempty.
Qed.

Lemma scipy_lagrange_nonempty (x w : list float) : scipy_lagrange x w <> [].
Proof. unfold scipy_lagrange. apply fold_polyadd_nonempty, poly1d_nonempty. Qed.

Lemma horner_nan x c cs : Prim2SF c = S754_nan -> Prim2SF (horner x c cs) = S754_nan.
Proof. intros H. destruct cs; simpl; apply nan_add_l, H. Qed.

(** The reversed SciPy coefficients always evaluate; a NaN at weight 3
    makes the evaluated value NaN. *)
Lemma lagrange_coefs_polyval st (ts ws : list float) :
  (3 < length ts)%nat ->
  exists v, polyval st (rev (scipy_lagrange ts ws)) = Ok v /\
    (Prim2SF (nth 3 ws 0%float) = S754_nan -> Prim2SF v = S754_nan).
Proof.
  intros Hts. destruct (rev (scipy_lagrange ts ws)) as [|c cs] eqn:E.
  - exfalso. apply (scipy_lagrange_nonempty ts ws).
    rewrite <- (rev_involutive (scipy_lagrange ts ws)), E. reflexivity.
  - exists (horner st c cs). split; [reflexivity|]. intros Hw.
    destruct (scipy_lagrange_last ts ws Hts Hw) as (c' & Hc' & Hn).
    rewrite <- (rev_involutive (scipy_lagrange ts ws)), E in Hc'.
    simpl in Hc'. rewrite last_snoc in Hc'. injection Hc' as <-.
    by apply horner_nan.
Qed.

Lemma poly_lagrange_fit lagrange (i : Z) (alldata : list sample) :
  (3 <= i <= Z.of_nat (length alldata) - 5)%Z ->
  let r (j : nat) := nth (Z.to_nat i - 3 + j) alldata sample0 in
  let m := row_vec (r 3%nat) in
  let sc := vec_sub (row_vec (r 7%nat)) (row_vec (r 0%nat)) in
  let sd := map (scale_row m sc) (map r (seq 0 8)) in
  _poly_lagrange lagrange i alldata =
    Ok (s_tm (r 3%nat),
        mkWindow (s_tm (r 0%nat)) (s_tm (r 7%nat)) m sc
          (rev (lagrange (map v_tm sd) (map v_x sd)))
          (rev (lagrange (map v_tm sd) (map v_y sd)))
          (rev (lagrange (map v_tm sd) (map v_z sd)))).
Proof.
  intros Hi r m sc sd. unfold _poly_lagrange.
  replace ((i <? 3) || (i >? Z.of_nat (length alldata) - 5))%Z with false
    by (symmetry; apply orb_false_iff; split;
        [apply Z.ltb_ge | rewrite Z.gtb_ltb; apply Z.ltb_ge]; lia).
  rewrite py_slice_window by done. reflexivity.
Qed.

(** C9 (amended): a Window Fit in which a coordinate has the same value
    at the first and the 8th sample of the window (a zero scale for that
    coordinate) evaluates, at every time, to NaN in that coordinate: the
    centre sample's scaled value [0 / 0] is NaN, so is the constant
    coefficient SciPy's [lagrange] returns, and Horner's scheme carries it
    to the un-scaled result.  Such a fit does not reproduce its samples. *)
Theorem window_fit_zero_scale_nan (i : Z) (alldata : list sample) :
  (3 <= i <= Z.of_nat (length alldata) - 5)%Z ->
  let r (j : nat) := nth (Z.to_nat i - 3 + j) alldata sample0 in
  exists k pd, _poly_lagrange scipy_lagrange i alldata = Ok (k, pd) /\
  forall t : Z, exists vx vy vz, eval_window pd t = Ok [vx; vy; vz] /\
    (s_x (r 7%nat) = s_x (r 0%nat) -> PrimFloat.is_nan vx = true) /\
    (s_y (r 7%nat) = s_y (r 0%nat) -> PrimFloat.is_nan vy = true) /\
    (s_z (r 7%nat) = s_z (r 0%nat) -> PrimFloat.is_nan vz = true).
Proof.
  intros Hi r. rewrite (poly_lagrange_fit scipy_lagrange i alldata Hi).
  eexists _, _. split; [reflexivity|]. intros t. unfold eval_window.
  cbn [cx cy cz mid scale].
  set (st := ((float_of_Z t - _) / _)%float).
  set (sd := map _ (map _ (seq 0 8))).
  assert (Hlen : (3 < length (map v_tm sd))%nat) by (simpl; lia).
  destruct (lagrange_coefs_polyval st _ (map v_x sd) Hlen) as (px & -> & Hpx).
  destruct (lagrange_coefs_polyval st _ (map v_y sd) Hlen) as (py & -> & Hpy).
  destruct (lagrange_coefs_polyval st _ (map v_z sd) Hlen) as (pz & -> & Hpz).
  eexists _, _, _. split; [reflexivity|].
  split; [|split]; intros Heq; apply nan_is_nan, nan_add_l, nan_mul_l.
  - apply Hpx. cbn. fold (r 3%nat) (r 7%nat) (r 0%nat). rewrite Heq.
    apply div_zero_or_nan; apply sub_self_zero_or_nan.
  - apply Hpy. cbn. fold (r 3%nat) (r 7%nat) (r 0%nat). rewrite Heq.
    apply div_zero_or_nan; apply sub_self_zero_or_nan.
  - apply Hpz. cbn. fold (r 3%nat) (r 7%nat) (r 0%nat). rewrite Heq.
    apply div_zero_or_nan; apply sub_self_zero_or_nan.
Qed.
